(** * Link checker (Week_1/link-checker.py): a shallow embedding

    The program fetches each seed page, collects the [href] values of its
    anchors that start with ["http"], requests every collected link once and
    records [(link, status_code)] pairs in a dictionary keyed by seed URL;
    a renderer then writes the dictionary as a markdown table.

    The network and the HTML parser are libraries outside the program
    ([requests] and [BeautifulSoup]); they are parameters of the model.  The
    program's own control flow (loops, [try]/[except], dictionary updates,
    file writes) is embedded as written, over a small state monad whose state
    records every request sent and every file written.

    The first part describes the runs in which every call of [requests.get]
    returns or raises a RequestException, the parser accepts the page and
    the file is written.  Module [Full] embeds the same lines together with
    the exceptions that the program does not catch, the time a request takes
    and the file operations that can fail; module [Requests] describes what
    the library does with redirects and with the timeout. *)

From Stdlib Require Import String Ascii List ZArith Lia Bool DecimalString.
Import ListNotations.
Local Open Scope string_scope.
Local Open Scope list_scope.

(** ** Python values used by the program *)

(** [str.startswith]. *)
Definition startswith (s p : string) : bool := String.prefix p s.

(** [str(n)] for an [int]. *)
Definition str (n : Z) : string := NilZero.string_of_int (Z.to_int n).

(** The line feed written as ["\n"] in the source. *)
Definition LF : string := String (ascii_of_nat 10) EmptyString.

(** A Python [dict] with string keys: insertion-ordered, one slot per key.
    Assigning to a key that is present replaces the value in place and
    keeps the slot's position; assigning to a new key appends a slot. *)
Module PyDict.

Definition dict (V : Type) : Type := list (string * V).

Definition empty {V : Type} : dict V := [].

(** [d[k] = v] *)
Fixpoint setitem {V : Type} (d : dict V) (k : string) (v : V) : dict V :=
  match d with
  | [] => [(k, v)]
  | (k', v') :: d' =>
      if String.eqb k' k then (k', v) :: d'
      else (k', v') :: setitem d' k v
  end.

(** [d.get(k, default)] *)
Fixpoint get {V : Type} (d : dict V) (k : string) (default : V) : V :=
  match d with
  | [] => default
  | (k', v') :: d' => if String.eqb k' k then v' else get d' k default
  end.

(** [list(d.keys())] *)
Definition keys {V : Type} (d : dict V) : list string := map fst d.

(** [k in d] *)
Definition mem {V : Type} (d : dict V) (k : string) : bool :=
  existsb (String.eqb k) (keys d).

End PyDict.

(** ** The outside world *)

(** One call [requests.get(url, timeout=t)]. *)
Record Request : Type := mkRequest { req_url : string; req_timeout : Z }.

(** The subclasses of [requests.exceptions.RequestException] that a GET
    can raise; the program catches the base class. *)
Inductive RequestException : Type :=
| Timeout
| ConnectionError
| SSLError
| TooManyRedirects
| InvalidURL
| OtherRequestException.

(** The two fields of a [requests.Response] that the program reads. *)
Record Response : Type := mkResponse { status_code : Z; text : string }.

(** What a call of [requests.get] does: return a response or raise a
    RequestException.  Exceptions of other classes, which the program does
    not catch, are in [Full.Reply]. *)
Inductive Outcome : Type :=
| Returns (response : Response)
| Raises (e : RequestException).

(** The state threaded through the program: the requests sent so far, oldest
    first, and the files written (name to contents). *)
Record World : Type := mkWorld {
  sent : list Request;
  files : PyDict.dict string
}.

Definition M (A : Type) : Type := World -> A * World.

Definition ret {A : Type} (a : A) : M A := fun w => (a, w).

Definition bind {A B : Type} (m : M A) (k : A -> M B) : M B :=
  fun w => let (a, w') := m w in k a w'.

Notation "x <- m ;; k" := (bind m (fun x => k))
  (at level 61, m at next level, right associativity).

(** [for x in xs: body], with the variables the body updates passed along
    as [acc]. *)
Fixpoint for_ {A S : Type} (xs : list A) (body : A -> S -> M S) (acc : S) : M S :=
  match xs with
  | [] => ret acc
  | x :: xs' => acc' <- body x acc ;; for_ xs' body acc'
  end.

(** [with open(filename, 'w') as f: f.write(...)] when it succeeds: the file
    holds what was written, replacing earlier contents.  A write that fails
    is in [Full.save_links_to_markdown]. *)
Definition write_file (filename contents : string) : M unit :=
  fun w => (tt, mkWorld (sent w) (PyDict.setitem (files w) filename contents)).

(** ** The program *)

Section LinkChecker.

(** The remote side: what a GET of a URL yields, given the requests
    already sent (servers may answer the same URL differently over time). *)
Variable network : list Request -> string -> Outcome.

(** [[a['href'] for a in BeautifulSoup(text, 'html.parser').find_all('a', href=True)]]:
    the [href] values of the anchors of a document, in document order, for
    the documents that the parser accepts. *)
Variable find_all_a_href : string -> list string.

Definition requests_get (url : string) (timeout : Z) : M Outcome :=
  fun w => (network (sent w) url,
            mkWorld (sent w ++ [mkRequest url timeout]) (files w)).

(** Lines 6-22. *)
Definition get_link_status (link : string) : M (string * Z) :=
  status <- (r <- requests_get link 10 ;;
             match r with
             | Returns response => ret (status_code response)
             | Raises _ => ret 0%Z
             end) ;;
  ret (link, status).

(** Lines 44-50: the loop that collects the links of one page. *)
Definition collect_links (hrefs : list string) : list string :=
  fold_left
    (fun links href => if startswith href "http" then links ++ [href] else links)
    hrefs [].

(** Lines 53-55: the loop that checks the links of one page. *)
Definition check_links (links : list string) : M (list (string * Z)) :=
  for_ links
    (fun link status_links =>
       s <- get_link_status link ;;
       ret (status_links ++ [s]))
    [].

(** Lines 38-62: the body of the loop over the seeds; it computes the
    value stored under [url]. *)
Definition scan_page (url : string) : M (list (string * Z)) :=
  r <- requests_get url 10 ;;
  match r with
  | Returns response =>
      let links := collect_links (find_all_a_href (text response)) in
      status_links <- check_links links ;;
      ret status_links
  | Raises _ => ret []
  end.

(** Lines 24-64. *)
Definition extract_http_links (urls : list string)
  : M (PyDict.dict (list (string * Z))) :=
  for_ urls
    (fun url result =>
       v <- scan_page url ;;
       ret (PyDict.setitem result url v))
    PyDict.empty.

(** Lines 94-95: the rows of a seed that has links. *)
Definition link_rows (url : string) (links : list (string * Z)) (f : string) : string :=
  fold_left
    (fun f ls =>
       (f ++ "| " ++ url ++ " | " ++ fst ls ++ " | " ++ str (snd ls) ++ " |" ++ LF)%string)
    links f.

Definition placeholder_row (url : string) : string :=
  ("| " ++ url ++ " | No links found or URL unreachable | - |" ++ LF)%string.

(** Lines 89-98: the rows of one seed, appended to what was written. *)
Definition seed_rows (links_dict : PyDict.dict (list (string * Z)))
           (f : string) (url : string) : string :=
  let links := PyDict.get links_dict url [] in
  match links with
  | _ :: _ => link_rows url links f
  | [] => (f ++ placeholder_row url)%string
  end.

Definition table_header : string :=
  ("# Link Checker Results" ++ LF ++ LF ++
   "| Source URL | Link | Status Code |" ++ LF ++
   "|------------|------|------------|" ++ LF)%string.

(** Lines 66-98.  Only file contents are tracked; creating the parent
    directory leaves them unchanged. *)
Definition save_links_to_markdown (urls : list string) (filename : string) : M unit :=
  links_dict <- extract_http_links urls ;;
  write_file filename (fold_left (seed_rows links_dict) urls table_header).

End LinkChecker.

(** The world before the program runs. *)
Definition fresh : World := mkWorld [] PyDict.empty.

(** ** Reference descriptions used in the statements *)

(** The elements of a list, each kept at its first occurrence. *)
Fixpoint distinct (l : list string) : list string :=
  match l with
  | [] => []
  | x :: l' => x :: filter (fun y => negb (String.eqb x y)) (distinct l')
  end.

(** The integer that [get_link_status] records for an outcome. *)
Definition recorded (o : Outcome) : Z :=
  match o with
  | Returns response => status_code response
  | Raises _ => 0%Z
  end.

(** The request sent for a link or a seed. *)
Definition get10 (url : string) : Request := mkRequest url 10.

Section Runs.

Variable network : list Request -> string -> Outcome.
Variable find_all_a_href : string -> list string.

(** The results of checking [links] one after the other when [h] lists
    the requests sent before. *)
Fixpoint statuses (h : list Request) (links : list string) : list (string * Z) :=
  match links with
  | [] => []
  | link :: links' =>
      (link, recorded (network h link)) :: statuses (h ++ [get10 link]) links'
  end.

(** The value computed for a seed when [h] lists the requests sent before. *)
Definition page_value (h : list Request) (url : string) : list (string * Z) :=
  match network h url with
  | Returns response =>
      statuses (h ++ [get10 url])
               (filter (fun href => startswith href "http")
                       (find_all_a_href (text response)))
  | Raises _ => []
  end.

(** The requests sent while scanning a seed. *)
Definition page_requests (h : list Request) (url : string) : list Request :=
  get10 url :: map get10 (map fst (page_value h url)).

End Runs.

(** ** Test doubles for the examples *)

(** A server with canned answers per URL; unknown hosts refuse the
    connection. *)
Fixpoint canned (table : list (string * Outcome)) (h : list Request) (url : string) : Outcome :=
  match table with
  | [] => Raises ConnectionError
  | (u, o) :: table' => if String.eqb u url then o else canned table' h url
  end.

(** The text up to the next single quote. *)
Fixpoint until_quote (s : string) : string :=
  match s with
  | EmptyString => EmptyString
  | String c s' => if Ascii.eqb c "'"%char then EmptyString else String c (until_quote s')
  end.

(** [s] without its first [n] characters. *)
Fixpoint drop (n : nat) (s : string) : string :=
  match n, s with
  | O, _ => s
  | S n', String _ s' => drop n' s'
  | S _, EmptyString => EmptyString
  end.

(** A minimal anchor scanner standing in for the HTML parser on the small
    documents of the examples: the values of [<a href='...'] in order. *)
Fixpoint scan_anchors (s : string) : list string :=
  match s with
  | EmptyString => []
  | String c s' =>
      if String.prefix "<a href='" s
      then until_quote (drop 9 s) :: scan_anchors s'
      else scan_anchors s'
  end.

Definition seed_a : string := "https://a.example/page".
Definition link_x : string := "https://x.example".
Definition link_y : string := "https://y.example".

Definition body_a : string :=
  "<html><body><a href='https://x.example'>x</a> <a href='/relative'>r</a> <a href='https://y.example'>y</a></body></html>".

(** The scenario of the specification's example: [x] answers 200, [y]
    fails with the given exception. *)
Definition scenario (e : RequestException) : list Request -> string -> Outcome :=
  canned [ (seed_a, Returns (mkResponse 200 body_a));
           (link_x, Returns (mkResponse 200 ""));
           (link_y, Raises e) ].

(** A page that repeats a link and has non-http references. *)
Definition body_b : string :=
  "<p><a href='http://x.example'>1</a><a href='#top'>2</a><a href='mailto:me@x.example'>3</a><a href='http://x.example'>4</a><a href='javascript:void(0)'>5</a></p>".

Definition seed_b : string := "http://b.example".

Definition server_b : list Request -> string -> Outcome :=
  canned [ (seed_b, Returns (mkResponse 200 body_b));
           ("http://x.example", Returns (mkResponse 404 "gone")) ].

(** A seed whose page has no anchor with an http reference. *)
Definition body_c : string := "<a href='/only/relative'>r</a>".

Definition server_c : list Request -> string -> Outcome :=
  canned [ (seed_a, Returns (mkResponse 200 body_c)) ].

(** A network on which every request fails. *)
Definition unreachable : list Request -> string -> Outcome := canned [].

(** ** The command line *)

(** Lines 107-113. *)
Definition default_urls : list string :=
  [ "https://www.uni-giessen.de/ub/de/forlehr/fdm/wissenswertes/allgemein";
    "https://www.uni-giessen.de/ub/de/forlehr/fdm/wissenswertes/personenbezogene-daten" ].

Definition default_output : string := "links.md".

(** Lines 119-121: the lines printed for the help flag. *)
Definition usage : list string :=
  [ "Usage: python link-checker.py [url1 url2 ...] [output_file]";
    "If no URLs are provided, default URLs will be used.";
    "If no output file is provided, 'links.md' will be used." ].

(** How [main] ends: by returning, or by [sys.exit(code)]. *)
Inductive Finish : Type :=
| Returned
| SystemExit (code : Z).

(** Lines 125-132: the loop over [sys.argv[1:]], carrying [urls] and
    [output_file]. *)
Definition classify_args (args : list string) : list string * string :=
  fold_left
    (fun st arg =>
       if startswith arg "http" then (fst st ++ [arg], snd st) else (fst st, arg))
    args ([], default_output).

(** ** Further reference descriptions *)

(** The strings of a list, one after the other. *)
Definition join (l : list string) : string := fold_right String.append "" l.

(** The table row of one checked link. *)
Definition link_row (url : string) (ls : string * Z) : string :=
  ("| " ++ url ++ " | " ++ fst ls ++ " | " ++ str (snd ls) ++ " |" ++ LF)%string.

(** The rows of one seed: a row per recorded link, or the placeholder. *)
Definition seed_block (links_dict : PyDict.dict (list (string * Z))) (url : string) : string :=
  match PyDict.get links_dict url [] with
  | [] => placeholder_row url
  | links => join (map (link_row url) links)
  end.

(** A network whose answer for a URL does not depend on earlier requests. *)
Definition stateless (network : list Request -> string -> Outcome) : Prop :=
  forall h h' url, network h url = network h' url.

(** The seeds and the output file that [main] takes from the arguments
    after the program name. *)
Definition seeds_of_args (args : list string) : list string :=
  match filter (fun arg => startswith arg "http") args with
  | [] => default_urls
  | urls => urls
  end.

Definition output_of_args (args : list string) : string :=
  last (filter (fun arg => negb (startswith arg "http")) args) default_output.

(** A server that answers a URL from the table the first time it is
    requested and lets every later request for it time out. *)
Definition once (table : list (string * Outcome)) (h : list Request) (url : string)
  : Outcome :=
  if existsb (fun r => String.eqb (req_url r) url) h then Raises Timeout
  else canned table h url.

(** ** The program with the exceptions it does not catch

    The sections above describe the runs in which [requests.get] returns
    or raises a RequestException, the parser accepts the page and the file
    can be written.  The program catches nothing else: any other exception
    ends the run.  This module embeds the same lines with those exceptions,
    the seconds a request takes and the operating system's file operations;
    the facts below relate its completed runs to the description above. *)

Module Full.

(** The exceptions that reach no handler of the program. *)
Inductive Uncaught : Type :=
| LibraryError  (* from [requests.get], of a class outside RequestException,
                   such as urllib3's LocationParseError *)
| MarkupError   (* from [BeautifulSoup(...)]: the parser rejects the markup *)
| OSError.      (* from [os.makedirs], [open] or a write *)

(** What a call of [requests.get] does: complete, by returning or by raising
    a RequestException, or raise an exception of another class. *)
Inductive Reply : Type :=
| Completes (o : Outcome)
| Escapes.

(** The result of a piece of program: a value, or an uncaught exception. *)
Inductive Res (A : Type) : Type :=
| Ok (a : A)
| Raised (x : Uncaught).

Arguments Ok {A} a.
Arguments Raised {A} x.

Section Program.

(** The state of the file system. *)
Context {Disk : Type}.

(** The calls of [requests.get] made so far, oldest first, the seconds spent
    in them, and the file system. *)
Record State : Type := mkState {
  calls : list Request;
  clock : Z;
  disk : Disk
}.

Definition E (A : Type) : Type := State -> Res A * State.

Definition ret {A : Type} (a : A) : E A := fun st => (Ok a, st).

(** An exception leaves the rest of the computation undone. *)
Definition bind {A B : Type} (m : E A) (k : A -> E B) : E B :=
  fun st =>
    match m st with
    | (Ok a, st') => k a st'
    | (Raised x, st') => (Raised x, st')
    end.

Notation "x <~ m ;; k" := (bind m (fun x => k))
  (at level 61, m at next level, right associativity).

Fixpoint for_ {A S : Type} (xs : list A) (body : A -> S -> E S) (acc : S) : E S :=
  match xs with
  | [] => ret acc
  | x :: xs' => acc' <~ body x acc ;; for_ xs' body acc'
  end.

(** [requests.get(url, timeout=t)] after the calls [h]: its reply and the
    seconds it takes. *)
Variable lib_get : list Request -> string -> Z -> Reply * Z.

(** The [href] values of the anchors of a document, or [None] when
    [BeautifulSoup] raises on it. *)
Variable find_all_a_href : string -> option (list string).

(** [os.path.dirname]. *)
Variable os_path_dirname : string -> string.

(** [os.makedirs(path, exist_ok=True)]: whether it succeeded, and the file
    system it leaves. *)
Variable os_makedirs : string -> Disk -> bool * Disk.

(** [open(filename, 'w', encoding='utf-8')], the writes of the text and the
    close: whether all succeeded, and the file system they leave. *)
Variable write_text : string -> string -> Disk -> bool * Disk.

Definition requests_get (url : string) (timeout : Z) : E Outcome :=
  fun st =>
    let st' := mkState (calls st ++ [mkRequest url timeout])
                       (clock st + snd (lib_get (calls st) url timeout))
                       (disk st) in
    match fst (lib_get (calls st) url timeout) with
    | Completes o => (Ok o, st')
    | Escapes => (Raised LibraryError, st')
    end.

(** An operation of the operating system; a failure raises. *)
Definition os_call (op : Disk -> bool * Disk) : E unit :=
  fun st =>
    let st' := mkState (calls st) (clock st) (snd (op (disk st))) in
    if fst (op (disk st)) then (Ok tt, st') else (Raised OSError, st').

(** Line 41. *)
Definition BeautifulSoup_hrefs (text : string) : E (list string) :=
  fun st =>
    match find_all_a_href text with
    | Some hrefs => (Ok hrefs, st)
    | None => (Raised MarkupError, st)
    end.

(** Lines 6-22. *)
Definition get_link_status (link : string) : E (string * Z) :=
  status <~ (r <~ requests_get link 10 ;;
             match r with
             | Returns response => ret (status_code response)
             | Raises _ => ret 0%Z
             end) ;;
  ret (link, status).

(** Lines 53-55. *)
Definition check_links (links : list string) : E (list (string * Z)) :=
  for_ links
    (fun link status_links =>
       s <~ get_link_status link ;;
       ret (status_links ++ [s]))
    [].

(** Lines 38-62. *)
Definition scan_page (url : string) : E (list (string * Z)) :=
  r <~ requests_get url 10 ;;
  match r with
  | Returns response =>
      hrefs <~ BeautifulSoup_hrefs (text response) ;;
      let links := collect_links hrefs in
      status_links <~ check_links links ;;
      ret status_links
  | Raises _ => ret []
  end.

(** Lines 24-64. *)
Definition extract_http_links (urls : list string)
  : E (PyDict.dict (list (string * Z))) :=
  for_ urls
    (fun url result =>
       v <~ scan_page url ;;
       ret (PyDict.setitem result url v))
    PyDict.empty.

(** Lines 66-98. *)
Definition save_links_to_markdown (urls : list string) (filename : string) : E unit :=
  links_dict <~ extract_http_links urls ;;
  let dir_name := os_path_dirname filename in
  u <~ match dir_name with
       | EmptyString => ret tt
       | String _ _ => os_call (os_makedirs dir_name)
       end ;;
  os_call (write_text filename (fold_left (seed_rows links_dict) urls table_header)).

(** Lines 140-142: the call of the checker and the final message. *)
Definition run_checker (urls : list string) (output_file : string)
  : E (list string * Finish) :=
  u <~ save_links_to_markdown urls output_file ;;
  ret (["Link check completed. Results saved to " ++ output_file]%string, Returned).

(** Lines 100-142, with [sys.argv] as argument; the value is what was
    printed, line by line, and how the function ended. *)
Definition main (argv : list string) : E (list string * Finish) :=
  if (1 <? length argv)%nat then
    if existsb (String.eqb (nth 1 argv "")) ["-h"; "--help"] then
      ret (usage, SystemExit 0)
    else
      let urls := fst (classify_args (tl argv)) in
      let output_file := snd (classify_args (tl argv)) in
      let urls := match urls with [] => default_urls | _ :: _ => urls end in
      run_checker urls output_file
  else
    run_checker default_urls default_output.

End Program.

Arguments State Disk : clear implicits.

End Full.

(** ** The requests library

    What [requests.get(url, timeout=t)] does with the answers of the
    servers, as far as the claims depend on it.  The library is not part of
    the repository; this follows its sources: [Session.get] sets
    [allow_redirects] to true, [Session.resolve_redirects] follows an answer
    whose status is in [REDIRECT_STATI] and that has a Location header, at
    most [max_redirects] = 30 times, and the timeout is handed to the socket,
    where it bounds the connect and every read on its own. *)

Module Requests.

(** The end of one HTTP exchange: an answer (status, target of the
    Location header if any, body), a failure that the library raises as a
    RequestException, or an error that it lets through as it is. *)
Inductive Result : Type :=
| Answer (status : Z) (location : option string) (body : string)
| Failure (e : RequestException)
| Error.

(** One HTTP exchange: the seconds that each blocking step would take (the
    connect, then each read) and how the exchange ends. *)
Record Exchange : Type := mkExchange { waits : list Z; result : Result }.

(** Whether a step runs into the timeout, and the seconds spent. *)
Fixpoint elapse (timeout : Z) (waits : list Z) : bool * Z :=
  match waits with
  | [] => (false, 0%Z)
  | wt :: waits' =>
      if (timeout <? wt)%Z then (true, timeout)
      else let (timed_out, seconds) := elapse timeout waits' in
           (timed_out, (wt + seconds)%Z)
  end.

(** An exchange under a timeout. *)
Definition perform (timeout : Z) (ex : Exchange) : Result * Z :=
  (if fst (elapse timeout (waits ex)) then Failure Timeout else result ex,
   snd (elapse timeout (waits ex))).

Definition REDIRECT_STATI : list Z := [301; 302; 303; 307; 308]%Z.

(** [Session.get_redirect_target], as the loop [while url] of
    [resolve_redirects] reads it: an empty Location is no target. *)
Definition get_redirect_target (status : Z) (location : option string) : option string :=
  match location with
  | Some (String c target) =>
      if existsb (Z.eqb status) REDIRECT_STATI then Some (String c target) else None
  | Some EmptyString => None
  | None => None
  end.

Definition max_redirects : nat := 30.

(** The exchanges of one call, with [fuel] redirects still allowed. *)
Fixpoint follow (wire : list Request -> string -> Exchange) (h : list Request)
         (timeout : Z) (fuel : nat) (url : string) : Full.Reply * Z :=
  match fst (perform timeout (wire h url)) with
  | Answer status location body =>
      match get_redirect_target status location with
      | Some target =>
          match fuel with
          | O => (Full.Completes (Raises TooManyRedirects),
                  snd (perform timeout (wire h url)))
          | S fuel' =>
              let (reply, seconds) := follow wire h timeout fuel' target in
              (reply, (snd (perform timeout (wire h url)) + seconds)%Z)
          end
      | None => (Full.Completes (Returns (mkResponse status body)),
                 snd (perform timeout (wire h url)))
      end
  | Failure e => (Full.Completes (Raises e), snd (perform timeout (wire h url)))
  | Error => (Full.Escapes, snd (perform timeout (wire h url)))
  end.

(** [requests.get(url, timeout=timeout)] over the servers [wire]. *)
Definition get (wire : list Request -> string -> Exchange)
           (h : list Request) (url : string) (timeout : Z) : Full.Reply * Z :=
  follow wire h timeout max_redirects url.

End Requests.

(** ** Descriptions and test doubles for the full program *)

(** The library never raises outside RequestException, and [network] names
    what its calls with timeout 10 do. *)
Definition agrees (lib_get : list Request -> string -> Z -> Full.Reply * Z)
           (network : list Request -> string -> Outcome) : Prop :=
  forall h url, fst (lib_get h url 10%Z) = Full.Completes (network h url).

(** The parser accepts every document, and [parser] names its results. *)
Definition accepts (find_all_a_href : string -> option (list string))
           (parser : string -> list string) : Prop :=
  forall text, find_all_a_href text = Some (parser text).

(** A library whose calls do what [network] says, at once. *)
Definition lib_of (network : list Request -> string -> Outcome)
  : list Request -> string -> Z -> Full.Reply * Z :=
  fun h url timeout => (Full.Completes (network h url), 0%Z).

(** The same, except that a call for [bad] raises outside
    RequestException. *)
Definition lib_escaping (bad : string) (network : list Request -> string -> Outcome)
  : list Request -> string -> Z -> Full.Reply * Z :=
  fun h url timeout =>
    if String.eqb url bad then (Full.Escapes, 0%Z) else lib_of network h url timeout.

(** A parser that accepts every document. *)
Definition parser_of (parser : string -> list string) : string -> option (list string) :=
  fun text => Some (parser text).

(** A parser that rejects the document [bad]. *)
Definition parser_rejecting (bad : string) (parser : string -> list string)
  : string -> option (list string) :=
  fun text => if String.eqb text bad then None else Some (parser text).

(** A file system in memory, on which only the empty file name cannot be
    opened. *)
Definition ram_makedirs (path : string) (d : PyDict.dict string) : bool * PyDict.dict string :=
  (true, d).

Definition ram_write (filename contents : string) (d : PyDict.dict string)
  : bool * PyDict.dict string :=
  match filename with
  | EmptyString => (false, d)
  | String _ _ => (true, PyDict.setitem d filename contents)
  end.

Fixpoint has_slash (s : string) : bool :=
  match s with
  | EmptyString => false
  | String c s' => Ascii.eqb c "/"%char || has_slash s'
  end.

(** The part of a relative path before its last slash. *)
Fixpoint dirname_double (p : string) : string :=
  match p with
  | EmptyString => EmptyString
  | String c p' => if has_slash p' then String c (dirname_double p') else EmptyString
  end.

(** The state before the program runs. *)
Definition start : Full.State (PyDict.dict string) := Full.mkState [] 0%Z PyDict.empty.

(** A link that the library cannot parse, and a page with it. *)
Definition link_bad : string := "http://a..b".

Definition body_bad : string := "<a href='http://a..b'>b</a><a href='https://x.example'>x</a>".

(** A document that the parser rejects. *)
Definition body_rejected : string := "<![spam[eggs]]>".

Definition seed_r : string := "http://r.example".

Definition server_r : list Request -> string -> Outcome :=
  canned [ (seed_a, Returns (mkResponse 200 body_bad));
           (seed_r, Returns (mkResponse 200 body_rejected));
           (seed_b, Returns (mkResponse 200 body_b));
           (link_x, Returns (mkResponse 200 ""));
           ("http://x.example", Returns (mkResponse 404 "gone")) ].

(** Servers that redirect, loop, answer slowly and stall. *)
Definition wire_w (h : list Request) (url : string) : Requests.Exchange :=
  if String.eqb url "http://old.example"
  then Requests.mkExchange [1%Z] (Requests.Answer 301 (Some "http://new.example") "")
  else if String.eqb url "http://new.example"
  then Requests.mkExchange [1%Z; 1%Z] (Requests.Answer 200 None "new")
  else if String.eqb url "http://loop.example"
  then Requests.mkExchange [1%Z] (Requests.Answer 302 (Some "http://loop.example") "")
  else if String.eqb url "http://missing.example"
  then Requests.mkExchange [1%Z; 1%Z] (Requests.Answer 404 None "not found")
  else if String.eqb url "http://slow.example"
  then Requests.mkExchange [8%Z; 8%Z] (Requests.Answer 200 None "slow")
  else if String.eqb url "http://stalled.example"
  then Requests.mkExchange [1%Z; 11%Z] (Requests.Answer 200 None "late")
  else if String.eqb url link_bad
  then Requests.mkExchange [] Requests.Error
  else Requests.mkExchange [1%Z] (Requests.Failure ConnectionError).

(** ** The dictionary *)

Module PyDictFacts.
Import PyDict.

Section Facts.
Context {V : Type}.
Implicit Types (d : dict V) (k : string) (v : V).

Lemma mem_In d k : mem d k = true <-> In k (keys d).
Proof.
  unfold mem. rewrite existsb_exists. split.
  - intros [x [Hin Heq]]. apply String.eqb_eq in Heq. now subst.
  - intros Hin. exists k. split; [assumption | apply String.eqb_refl].
Qed.

(** Assignment keeps the keys when the key is present and appends it
    otherwise. *)
Lemma keys_setitem d k v :
  keys (setitem d k v) = if mem d k then keys d else keys d ++ [k].
Proof.
  induction d as [| [k' v'] d IH]; [reflexivity |].
  unfold mem in *. cbn [setitem keys map fst existsb] in *.
  rewrite (String.eqb_sym k k').
  destruct (String.eqb k' k) eqn:E; cbn [orb map fst].
  - reflexivity.
  - unfold keys in IH. rewrite IH.
    destruct (existsb (String.eqb k) (map fst d)); reflexivity.
Qed.

Lemma In_keys_setitem d k v k' :
  In k' (keys (setitem d k v)) <-> In k' (keys d) \/ k' = k.
Proof.
  rewrite keys_setitem. destruct (mem d k) eqn:E.
  - apply mem_In in E. split; [tauto | intros [H | ->]; assumption].
  - rewrite in_app_iff. cbn. intuition congruence.
Qed.

Lemma get_setitem_same d k v default : get (setitem d k v) k default = v.
Proof.
  induction d as [| [k' v'] d IH]; cbn.
  - now rewrite String.eqb_refl.
  - destruct (String.eqb k' k) eqn:E; cbn; rewrite E; [reflexivity | exact IH].
Qed.

Lemma get_setitem_other d k v k' default :
  k' <> k -> get (setitem d k v) k' default = get d k' default.
Proof.
  intros Hne. induction d as [| [k0 v0] d IH]; cbn.
  - destruct (String.eqb_spec k k'); [congruence | reflexivity].
  - destruct (String.eqb_spec k0 k) as [-> | Hk]; cbn.
    + destruct (String.eqb_spec k k'); [congruence | reflexivity].
    + destruct (String.eqb k0 k'); [reflexivity | exact IH].
Qed.

(** Every slot of the dictionary after an assignment is an old slot or
    holds the assigned value under the assigned key. *)
Lemma In_setitem d k v k' v' :
  In (k', v') (setitem d k v) -> In (k', v') d \/ (k' = k /\ v' = v).
Proof.
  induction d as [| [k0 v0] d IH]; cbn.
  - intros [H | []]. injection H as <- <-. now right.
  - destruct (String.eqb_spec k0 k) as [-> | Hk]; cbn.
    + intros [H | H]; [injection H as <- <-; now right | left; now right].
    + intros [H | H]; [left; now left |].
      destruct (IH H) as [H' | H']; [left; now right | now right].
Qed.

End Facts.
End PyDictFacts.

(** ** First occurrences *)

Lemma filter_filter_comm {A : Type} (p q : A -> bool) (l : list A) :
  filter p (filter q l) = filter q (filter p l).
Proof.
  induction l as [| a l IH]; [reflexivity |]. cbn.
  destruct (p a) eqn:P, (q a) eqn:Q; cbn; rewrite ?P, ?Q, IH; reflexivity.
Qed.

Lemma filter_id {A : Type} (p : A -> bool) (l : list A) :
  (forall a, In a l -> p a = true) -> filter p l = l.
Proof.
  induction l as [| a l IH]; intros H; [reflexivity |]. cbn.
  rewrite (H a (or_introl eq_refl)). f_equal. apply IH. intros b Hb. apply H. now right.
Qed.

Lemma filter_none {A : Type} (p : A -> bool) (l : list A) :
  (forall a, In a l -> p a = false) -> filter p l = [].
Proof.
  induction l as [| a l IH]; intros H; [reflexivity |]. cbn.
  rewrite (H a (or_introl eq_refl)). apply IH. intros b Hb. apply H. now right.
Qed.

Lemma In_distinct (l : list string) (x : string) : In x (distinct l) <-> In x l.
Proof.
  induction l as [| a l IH]; [reflexivity |]. cbn.
  rewrite filter_In, IH. destruct (String.eqb_spec a x) as [-> | Hne]; cbn.
  - split; [intros [H | [_ H]]; [now left | discriminate] | intros _; now left].
  - intuition congruence.
Qed.

Lemma distinct_NoDup (l : list string) : NoDup l -> distinct l = l.
Proof.
  induction 1 as [| a l Hnotin Hnd IH]; [reflexivity |]. cbn. f_equal.
  rewrite IH. apply filter_id. intros b Hb.
  destruct (String.eqb_spec a b) as [-> | _]; [contradiction | reflexivity].
Qed.

Lemma NoDup_distinct (l : list string) : NoDup (distinct l).
Proof.
  induction l as [| a l IH]; cbn; constructor.
  - rewrite filter_In, String.eqb_refl. intros [_ H]. discriminate.
  - now apply NoDup_filter.
Qed.

Lemma filter_andb {A : Type} (p q : A -> bool) (l : list A) :
  filter (fun a => p a && q a) l = filter p (filter q l).
Proof.
  induction l as [| a l IH]; [reflexivity |]. cbn.
  destruct (q a) eqn:Q; cbn; destruct (p a) eqn:P; cbn; rewrite IH; reflexivity.
Qed.

Lemma mem_setitem {V : Type} (d : PyDict.dict V) (k : string) (v : V) (x : string) :
  PyDict.mem (PyDict.setitem d k v) x = PyDict.mem d x || String.eqb k x.
Proof.
  unfold PyDict.mem at 1. rewrite PyDictFacts.keys_setitem.
  destruct (PyDict.mem d k) eqn:E.
  - fold (PyDict.mem d x). destruct (String.eqb_spec k x) as [<- | _].
    + rewrite E. reflexivity.
    + now rewrite orb_false_r.
  - rewrite existsb_app. cbn. fold (PyDict.mem d x).
    rewrite orb_false_r, (String.eqb_sym x k). reflexivity.
Qed.

(** ** What a run does *)

Lemma world_eta (w : World) : mkWorld (sent w) (files w) = w.
Proof. destruct w; reflexivity. Qed.

Section RunFacts.

Variable network : list Request -> string -> Outcome.
Variable find_all_a_href : string -> list string.

Lemma get_link_status_run link w :
  get_link_status network link w =
  ((link, recorded (network (sent w) link)),
   mkWorld (sent w ++ [get10 link]) (files w)).
Proof.
  unfold get_link_status, requests_get, bind, ret, recorded. cbn.
  destruct (network (sent w) link); reflexivity.
Qed.

Lemma collect_links_from hrefs acc :
  fold_left
    (fun links href => if startswith href "http" then links ++ [href] else links)
    hrefs acc
  = acc ++ filter (fun href => startswith href "http") hrefs.
Proof.
  revert acc. induction hrefs as [| h hrefs IH]; intros acc; cbn.
  - now rewrite app_nil_r.
  - rewrite IH. destruct (startswith h "http"); [| reflexivity].
    now rewrite <- app_assoc.
Qed.

Lemma collect_links_filter hrefs :
  collect_links hrefs = filter (fun href => startswith href "http") hrefs.
Proof. unfold collect_links. now rewrite collect_links_from. Qed.

Lemma check_links_from links acc w :
  for_ links (fun link status_links =>
                s <- get_link_status network link ;; ret (status_links ++ [s])) acc w
  = (acc ++ statuses network (sent w) links,
     mkWorld (sent w ++ map get10 links) (files w)).
Proof.
  revert acc w. induction links as [| l links IH]; intros acc w.
  - cbn. unfold ret. now rewrite !app_nil_r, world_eta.
  - cbn [for_ map statuses]. unfold bind at 1 2.
    rewrite get_link_status_run. unfold ret at 1. rewrite IH. cbn [sent files].
    now rewrite <- !app_assoc.
Qed.

Lemma check_links_run links w :
  check_links network links w =
  (statuses network (sent w) links, mkWorld (sent w ++ map get10 links) (files w)).
Proof. unfold check_links. now rewrite check_links_from. Qed.

Lemma statuses_fst h links : map fst (statuses network h links) = links.
Proof.
  revert h. induction links as [| l links IH]; intros h; cbn; [| rewrite IH]; reflexivity.
Qed.

Lemma scan_page_run url w :
  scan_page network find_all_a_href url w =
  (page_value network find_all_a_href (sent w) url,
   mkWorld (sent w ++ page_requests network find_all_a_href (sent w) url) (files w)).
Proof.
  unfold scan_page, page_requests, page_value, requests_get, bind. cbn.
  destruct (network (sent w) url) as [response | e].
  - rewrite check_links_run, collect_links_filter. unfold ret. cbn [sent files].
    rewrite statuses_fst, <- app_assoc. reflexivity.
  - reflexivity.
Qed.

(** One turn of the loop over the seeds, started from any dictionary. *)
Lemma seeds_loop_cons url urls acc w :
  for_ (url :: urls)
       (fun url result =>
          v <- scan_page network find_all_a_href url ;; ret (PyDict.setitem result url v))
       acc w
  = for_ urls
         (fun url result =>
            v <- scan_page network find_all_a_href url ;; ret (PyDict.setitem result url v))
         (PyDict.setitem acc url (page_value network find_all_a_href (sent w) url))
         (mkWorld (sent w ++ page_requests network find_all_a_href (sent w) url) (files w)).
Proof.
  cbn [for_]. unfold bind at 1 2. rewrite scan_page_run. reflexivity.
Qed.

(** The keys after the loop: the old ones, then the new seeds at their
    first occurrence. *)
Lemma seeds_loop_keys urls acc w :
  PyDict.keys
    (fst (for_ urls
               (fun url result =>
                  v <- scan_page network find_all_a_href url ;;
                  ret (PyDict.setitem result url v))
               acc w))
  = PyDict.keys acc ++ filter (fun u => negb (PyDict.mem acc u)) (distinct urls).
Proof.
  revert acc w. induction urls as [| url urls IH]; intros acc w.
  - cbn. now rewrite app_nil_r.
  - rewrite seeds_loop_cons, IH. cbn [distinct filter].
    rewrite (filter_ext _ (fun u => negb (PyDict.mem acc u) && negb (String.eqb url u)))
      by (intros u; now rewrite mem_setitem, negb_orb).
    rewrite filter_andb, PyDictFacts.keys_setitem.
    destruct (PyDict.mem acc url); cbn [negb]; [reflexivity |].
    now rewrite <- app_assoc.
Qed.

(** Every slot after the loop is an old slot or the value of a scan of
    its key. *)
Lemma seeds_loop_entries urls acc w k v :
  In (k, v)
     (fst (for_ urls
                (fun url result =>
                   v <- scan_page network find_all_a_href url ;;
                   ret (PyDict.setitem result url v))
                acc w)) ->
  In (k, v) acc \/
  exists h, In k urls /\ v = page_value network find_all_a_href h k.
Proof.
  revert acc w. induction urls as [| url urls IH]; intros acc w.
  - cbn. now left.
  - rewrite seeds_loop_cons. intros H. destruct (IH _ _ H) as [H' | [h [Hin Hv]]].
    + apply PyDictFacts.In_setitem in H'. destruct H' as [H' | [-> ->]].
      * now left.
      * right. exists (sent w). split; [now left | reflexivity].
    + right. exists h. split; [now right | assumption].
Qed.

(** The requests sent by the loop: all with timeout 10, among them one
    for every seed; files are left alone. *)
Lemma seeds_loop_sent urls acc w :
  exists trace,
    sent (snd (for_ urls
                    (fun url result =>
                       v <- scan_page network find_all_a_href url ;;
                       ret (PyDict.setitem result url v))
                    acc w)) = sent w ++ trace /\
    files (snd (for_ urls
                     (fun url result =>
                        v <- scan_page network find_all_a_href url ;;
                        ret (PyDict.setitem result url v))
                     acc w)) = files w /\
    Forall (fun r => req_timeout r = 10%Z) trace /\
    (forall url, In url urls -> In (get10 url) trace).
Proof.
  revert acc w. induction urls as [| url urls IH]; intros acc w.
  - exists []. cbn. rewrite app_nil_r. repeat split; [constructor | intros ? []].
  - rewrite seeds_loop_cons.
    destruct (IH (PyDict.setitem acc url (page_value network find_all_a_href (sent w) url))
                 (mkWorld (sent w ++ page_requests network find_all_a_href (sent w) url)
                          (files w)))
      as [trace [Hs [Hf [Ht Hin]]]].
    exists (page_requests network find_all_a_href (sent w) url ++ trace).
    cbn [sent files] in Hs, Hf.
    rewrite Hs, Hf, <- app_assoc. repeat split.
    + apply Forall_app. split; [| assumption].
      unfold page_requests. constructor; [reflexivity |].
      apply Forall_forall. intros r Hr. apply in_map_iff in Hr.
      destruct Hr as [l [<- _]]. reflexivity.
    + intros u [<- | Hu]; apply in_or_app.
      * left. unfold page_requests. now left.
      * right. now apply Hin.
Qed.

End RunFacts.

(** ** Reading the dictionary after the run *)

Lemma get_In {V : Type} (d : PyDict.dict V) (k : string) (default : V) :
  In k (PyDict.keys d) -> In (k, PyDict.get d k default) d.
Proof.
  induction d as [| [k' v'] d IH]; cbn; [intros [] |].
  destruct (String.eqb_spec k' k) as [-> | Hne].
  - intros _. now left.
  - intros [H | H]; [congruence | right; now apply IH].
Qed.

Section ReportFacts.

Variable network : list Request -> string -> Outcome.
Variable find_all_a_href : string -> list string.

Lemma report_keys urls w :
  PyDict.keys (fst (extract_http_links network find_all_a_href urls w)) = distinct urls.
Proof.
  unfold extract_http_links. rewrite seeds_loop_keys. cbn [PyDict.keys PyDict.empty map app].
  apply filter_id. reflexivity.
Qed.

Lemma report_entries urls w url links :
  In (url, links) (fst (extract_http_links network find_all_a_href urls w)) ->
  exists h, In url urls /\ links = page_value network find_all_a_href h url.
Proof.
  unfold extract_http_links. intros H.
  destruct (seeds_loop_entries _ _ _ _ _ _ _ H) as [[] | Hex]. exact Hex.
Qed.

(** Looking up a seed yields the value of one of its scans. *)
Lemma report_get urls w url default :
  In url urls ->
  exists h,
    PyDict.get (fst (extract_http_links network find_all_a_href urls w)) url default
    = page_value network find_all_a_href h url.
Proof.
  intros Hin.
  assert (Hk : In url (PyDict.keys (fst (extract_http_links network find_all_a_href urls w))))
    by (rewrite report_keys; now apply In_distinct).
  apply (get_In _ _ default) in Hk. apply report_entries in Hk.
  destruct Hk as [h [_ Hv]]. now exists h.
Qed.

Lemma report_sent urls w :
  exists trace,
    sent (snd (extract_http_links network find_all_a_href urls w)) = sent w ++ trace /\
    files (snd (extract_http_links network find_all_a_href urls w)) = files w /\
    Forall (fun r => req_timeout r = 10%Z) trace /\
    (forall url, In url urls -> In (get10 url) trace).
Proof. unfold extract_http_links. apply seeds_loop_sent. Qed.

(** A seed without recorded links gets the placeholder row. *)
Lemma seed_rows_placeholder links_dict urls f :
  (forall url, In url urls -> PyDict.get links_dict url [] = []) ->
  fold_left (seed_rows links_dict) urls f
  = fold_left (fun f url => (f ++ placeholder_row url)%string) urls f.
Proof.
  revert f. induction urls as [| url urls IH]; intros f H; [reflexivity |].
  cbn [fold_left]. rewrite IH by (intros u Hu; apply H; now right).
  unfold seed_rows at 1. rewrite (H url (or_introl eq_refl)). reflexivity.
Qed.

(** The file written by the renderer, when no seed has recorded links. *)
Lemma markdown_of_blank_seeds urls filename w :
  (forall url h, In url urls -> page_value network find_all_a_href h url = []) ->
  PyDict.get
    (files (snd (save_links_to_markdown network find_all_a_href urls filename w)))
    filename ""
  = fold_left (fun f url => (f ++ placeholder_row url)%string) urls table_header.
Proof.
  intros Hblank. unfold save_links_to_markdown, bind.
  destruct (extract_http_links network find_all_a_href urls w) as [links_dict w'] eqn:E.
  unfold write_file. cbn [snd files]. rewrite PyDictFacts.get_setitem_same.
  apply seed_rows_placeholder. intros url Hin.
  destruct (report_get urls w url [] Hin) as [h Hh].
  rewrite E in Hh. cbn [fst] in Hh. rewrite Hh. now apply Hblank.
Qed.

End ReportFacts.

(** ** The claims *)

(** C1, counterexample.  A link on an unreachable network is recorded
    with the plain integer 0, and a timeout and a refused connection are
    recorded alike: the outcome is no tagged failure value. *)
Lemma failure_recorded_as_integer_zero :
  unreachable (sent fresh) link_y = Raises ConnectionError /\
  fst (get_link_status unreachable link_y fresh) = (link_y, 0%Z) /\
  fst (get_link_status (scenario Timeout) link_y fresh)
  = fst (get_link_status (scenario ConnectionError) link_y fresh).
Proof. repeat split. Qed.

(** C1, as the code has it.  A link whose request raises a
    RequestException is recorded with the integer 0, whatever the
    exception; a response whose status code lies in 100..599 is recorded
    with that code, hence never with 0. *)
Theorem failed_check_recorded_as_zero network link w :
  (forall e, network (sent w) link = Raises e ->
             fst (get_link_status network link w) = (link, 0%Z)) /\
  (forall response,
      network (sent w) link = Returns response ->
      (100 <= status_code response <= 599)%Z ->
      snd (fst (get_link_status network link w)) = status_code response /\
      snd (fst (get_link_status network link w)) <> 0%Z).
Proof.
  rewrite get_link_status_run. cbn [fst snd]. split.
  - intros e ->. reflexivity.
  - intros response ->. cbn [recorded]. lia.
Qed.

Lemma failed_check_recorded_as_zero_witness :
  fst (get_link_status (scenario Timeout) link_y fresh) = (link_y, 0%Z) /\
  snd (fst (get_link_status (scenario Timeout) link_x fresh)) <> 0%Z.
Proof.
  split.
  - apply (proj1 (failed_check_recorded_as_zero (scenario Timeout) link_y fresh) Timeout).
    reflexivity.
  - apply (proj2 (failed_check_recorded_as_zero (scenario Timeout) link_x fresh)
                 (mkResponse 200 "")).
    + reflexivity.
    + cbn. lia.
Defined.

(** C2, counterexample.  A seed given twice has one entry in the report,
    which is then shorter than the seed list. *)
Lemma repeated_seed_has_one_entry :
  length (fst (extract_http_links (scenario ConnectionError) scan_anchors
                                  [seed_a; seed_a] fresh))
  <> length [seed_a; seed_a].
Proof. vm_compute. discriminate. Qed.

(** C2, as the code has it.  The report has one entry per distinct seed,
    in the order of the seeds' first occurrences; for a seed list without
    repetition it has exactly one entry per seed, as many entries as
    seeds, in the order of the seeds. *)
Theorem report_one_entry_per_distinct_seed network find_all_a_href urls w :
  PyDict.keys (fst (extract_http_links network find_all_a_href urls w)) = distinct urls /\
  NoDup (PyDict.keys (fst (extract_http_links network find_all_a_href urls w))) /\
  (NoDup urls ->
   PyDict.keys (fst (extract_http_links network find_all_a_href urls w)) = urls /\
   length (fst (extract_http_links network find_all_a_href urls w)) = length urls).
Proof.
  rewrite report_keys. split; [reflexivity |]. split; [apply NoDup_distinct |].
  intros Hnd. split; [now apply distinct_NoDup |].
  rewrite <- (length_map fst). fold (PyDict.keys (fst (extract_http_links network find_all_a_href urls w))).
  rewrite report_keys. now rewrite distinct_NoDup.
Qed.

Lemma report_one_entry_per_distinct_seed_witness :
  PyDict.keys (fst (extract_http_links server_b scan_anchors [seed_a; seed_b] fresh))
  = [seed_a; seed_b] /\
  length (fst (extract_http_links server_b scan_anchors [seed_a; seed_b] fresh)) = 2.
Proof.
  apply (proj2 (proj2 (report_one_entry_per_distinct_seed
                         server_b scan_anchors [seed_a; seed_b] fresh))).
  repeat constructor; cbn; intuition discriminate.
Defined.


(** C5.  The collected links are exactly the [href] values that start
    with ["http"], in their order; when none does, the result is the empty
    list. *)
Theorem collect_links_keeps_http_prefixed hrefs :
  collect_links hrefs = filter (fun href => startswith href "http") hrefs /\
  (forall href,
      In href (collect_links hrefs) <-> In href hrefs /\ startswith href "http" = true) /\
  ((forall href, In href hrefs -> startswith href "http" = false) ->
   collect_links hrefs = []).
Proof.
  rewrite collect_links_filter. split; [reflexivity |]. split.
  - intros href. exact (filter_In (fun h => startswith h "http") href hrefs).
  - apply filter_none.
Qed.

Lemma collect_links_keeps_http_prefixed_witness :
  collect_links ["/relative"; "mailto:me@x.example"; "#top"; "javascript:void(0)"] = [].
Proof.
  apply (proj2 (proj2 (collect_links_keeps_http_prefixed
                         ["/relative"; "mailto:me@x.example"; "#top"; "javascript:void(0)"]))).
  intros href H. cbn in H.
  destruct H as [<- | [<- | [<- | [<- | []]]]]; reflexivity.
Defined.

(** C6.  The links recorded for a page are the http references of its
    anchors in document order, repetitions included; this holds for every
    entry of the report. *)
Theorem links_keep_document_order network find_all_a_href :
  (forall url w response,
      network (sent w) url = Returns response ->
      map fst (fst (scan_page network find_all_a_href url w))
      = filter (fun href => startswith href "http") (find_all_a_href (text response))) /\
  (forall urls w url links,
      In (url, links) (fst (extract_http_links network find_all_a_href urls w)) ->
      exists h,
        match network h url with
        | Returns response =>
            map fst links
            = filter (fun href => startswith href "http") (find_all_a_href (text response))
        | Raises _ => links = []
        end).
Proof.
  split.
  - intros url w response H. rewrite scan_page_run. cbn [fst].
    unfold page_value. now rewrite H, statuses_fst.
  - intros urls w url links Hin. apply report_entries in Hin.
    destruct Hin as [h [_ ->]]. exists h. unfold page_value.
    destruct (network h url); [apply statuses_fst | reflexivity].
Qed.

Lemma links_keep_document_order_witness :
  map fst (fst (scan_page server_b scan_anchors seed_b fresh))
  = ["http://x.example"; "http://x.example"].
Proof.
  apply (proj1 (links_keep_document_order server_b scan_anchors)
               seed_b fresh (mkResponse 200 body_b)).
  reflexivity.
Defined.

(** C8, counterexample.  In the example scenario the outcome recorded for
    y.example is the integer 0, not a ConnectionError value, and the report
    is the same when y.example times out instead. *)
Lemma example_scenario_records_zero :
  fst (extract_http_links (scenario ConnectionError) scan_anchors [seed_a] fresh)
  = [(seed_a, [(link_x, 200%Z); (link_y, 0%Z)])] /\
  fst (extract_http_links (scenario Timeout) scan_anchors [seed_a] fresh)
  = fst (extract_http_links (scenario ConnectionError) scan_anchors [seed_a] fresh).
Proof. split; reflexivity. Qed.

(** C8, as the code has it.  For the seed list [a.example/page] whose page
    has the anchors x.example, /relative, y.example in that order, with
    x.example answering 200 and y.example refusing the connection, the
    report has one entry, for a.example, with the two results
    (x.example, 200) and (y.example, 0) in that order. *)
Theorem example_scenario_report network find_all_a_href w response :
  network (sent w) seed_a = Returns response ->
  find_all_a_href (text response) = [link_x; "/relative"; link_y] ->
  (forall h, exists r, network h link_x = Returns r /\ status_code r = 200%Z) ->
  (forall h, network h link_y = Raises ConnectionError) ->
  fst (extract_http_links network find_all_a_href [seed_a] w)
  = [(seed_a, [(link_x, 200%Z); (link_y, 0%Z)])].
Proof.
  intros Hpage Hanchors Hx Hy. unfold extract_http_links.
  rewrite seeds_loop_cons. cbn [for_ ret fst PyDict.setitem PyDict.empty].
  unfold page_value. rewrite Hpage, Hanchors. cbn [filter].
  change (startswith link_x "http") with true.
  change (startswith "/relative" "http") with false.
  change (startswith link_y "http") with true.
  cbn [statuses]. rewrite Hy.
  destruct (Hx (sent w ++ [get10 seed_a])) as [r [-> Hr]].
  cbn [recorded]. now rewrite Hr.
Qed.

Lemma example_scenario_report_witness :
  fst (extract_http_links (scenario ConnectionError) scan_anchors [seed_a] fresh)
  = [(seed_a, [(link_x, 200%Z); (link_y, 0%Z)])].
Proof.
  apply (example_scenario_report (scenario ConnectionError) scan_anchors fresh
                                 (mkResponse 200 body_a)).
  - reflexivity.
  - reflexivity.
  - intros h. exists (mkResponse 200 ""). split; reflexivity.
  - intros h. reflexivity.
Defined.

(** C10.  A run in which the seeds cannot be fetched and a run in which
    they are fetched but have no http link write the same file: the header
    followed by the placeholder row of each seed. *)
Theorem unreachable_and_linkless_seeds_render_alike
        net1 net2 find_all_a_href urls filename w1 w2 :
  (forall url h, In url urls -> exists e, net1 h url = Raises e) ->
  (forall url h, In url urls ->
                 exists response,
                   net2 h url = Returns response /\
                   collect_links (find_all_a_href (text response)) = []) ->
  PyDict.get (files (snd (save_links_to_markdown net1 find_all_a_href urls filename w1)))
             filename ""
  = PyDict.get (files (snd (save_links_to_markdown net2 find_all_a_href urls filename w2)))
               filename "" /\
  PyDict.get (files (snd (save_links_to_markdown net1 find_all_a_href urls filename w1)))
             filename ""
  = fold_left (fun f url => (f ++ placeholder_row url)%string) urls table_header.
Proof.
  intros Hdown Hblank.
  rewrite !markdown_of_blank_seeds.
  - split; reflexivity.
  - intros url h Hin. unfold page_value.
    destruct (Hblank url h Hin) as [response [-> Hnone]].
    rewrite collect_links_filter in Hnone. now rewrite Hnone.
  - intros url h Hin. unfold page_value.
    destruct (Hdown url h Hin) as [e ->]. reflexivity.
Qed.

Lemma unreachable_and_linkless_seeds_render_alike_witness :
  PyDict.get (files (snd (save_links_to_markdown unreachable scan_anchors [seed_a]
                                                 "links.md" fresh)))
             "links.md" ""
  = PyDict.get (files (snd (save_links_to_markdown server_c scan_anchors [seed_a]
                                                   "links.md" fresh)))
               "links.md" "".
Proof.
  apply (unreachable_and_linkless_seeds_render_alike
           unreachable server_c scan_anchors [seed_a] "links.md" fresh fresh).
  - intros url h _. exists ConnectionError. reflexivity.
  - intros url h [<- | []]. exists (mkResponse 200 body_c). split; reflexivity.
Defined.

(** ** The written file *)

Lemma append_assoc (a b c : string) : ((a ++ b) ++ c = a ++ (b ++ c))%string.
Proof. induction a as [| ch a IH]; cbn; [| rewrite IH]; reflexivity. Qed.

Lemma append_nil_r (a : string) : (a ++ "" = a)%string.
Proof. induction a as [| ch a IH]; cbn; [| rewrite IH]; reflexivity. Qed.

Lemma link_rows_join url links f :
  link_rows url links f = (f ++ join (map (link_row url) links))%string.
Proof.
  revert f. induction links as [| ls links IH]; intros f.
  - cbn. now rewrite append_nil_r.
  - unfold link_rows in *. cbn [fold_left map join fold_right].
    rewrite IH. fold (link_row url ls). now rewrite append_assoc.
Qed.

Lemma seed_rows_block links_dict f url :
  seed_rows links_dict f url = (f ++ seed_block links_dict url)%string.
Proof.
  unfold seed_rows, seed_block.
  destruct (PyDict.get links_dict url []) as [| ls links]; [reflexivity |].
  apply link_rows_join.
Qed.

Lemma fold_seed_rows links_dict urls f :
  fold_left (seed_rows links_dict) urls f
  = (f ++ join (map (seed_block links_dict) urls))%string.
Proof.
  revert f. induction urls as [| url urls IH]; intros f.
  - cbn. now rewrite append_nil_r.
  - cbn [fold_left map join fold_right]. rewrite IH, seed_rows_block.
    now rewrite append_assoc.
Qed.

Section RenderFacts.

Variable network : list Request -> string -> Outcome.
Variable find_all_a_href : string -> list string.

(** The renderer runs the checker and then writes one file. *)
Lemma save_links_to_markdown_run urls filename w :
  save_links_to_markdown network find_all_a_href urls filename w =
  (tt,
   mkWorld
     (sent (snd (extract_http_links network find_all_a_href urls w)))
     (PyDict.setitem
        (files w) filename
        (fold_left (seed_rows (fst (extract_http_links network find_all_a_href urls w)))
                   urls table_header))).
Proof.
  unfold save_links_to_markdown, bind, write_file.
  destruct (report_sent network find_all_a_href urls w) as [trace [_ [Hf _]]].
  destruct (extract_http_links network find_all_a_href urls w) as [links_dict w'].
  cbn [fst snd] in *. now rewrite Hf.
Qed.

(** The checker reads the requests sent so far and nothing else of the
    world. *)
Lemma seeds_loop_reads_sent_only urls acc w1 w2 :
  sent w1 = sent w2 ->
  fst (for_ urls
            (fun url result =>
               v <- scan_page network find_all_a_href url ;;
               ret (PyDict.setitem result url v))
            acc w1)
  = fst (for_ urls
              (fun url result =>
                 v <- scan_page network find_all_a_href url ;;
                 ret (PyDict.setitem result url v))
              acc w2).
Proof.
  revert acc w1 w2. induction urls as [| url urls IH]; intros acc w1 w2 Hs.
  - reflexivity.
  - rewrite !seeds_loop_cons, Hs. apply IH. reflexivity.
Qed.

End RenderFacts.

(** X1 (save_links_to_markdown, lines 84-98).  The file written is the
    table header followed, for every seed of the list in order (repeated
    seeds included), by the rows of that seed: one row per link recorded
    for it in the report, in the recorded order, or the placeholder row
    when no link is recorded. *)
Theorem markdown_is_header_then_seed_blocks network find_all_a_href urls filename w :
  PyDict.get
    (files (snd (save_links_to_markdown network find_all_a_href urls filename w)))
    filename ""
  = (table_header
       ++ join (map (seed_block (fst (extract_http_links network find_all_a_href urls w)))
                    urls))%string.
Proof.
  rewrite save_links_to_markdown_run. cbn [snd files].
  rewrite PyDictFacts.get_setitem_same. apply fold_seed_rows.
Qed.

(** ** What the report holds *)

Lemma for_app {A S : Type} (l1 l2 : list A) (body : A -> S -> M S) (acc : S) (w : World) :
  for_ (l1 ++ l2) body acc w
  = for_ l2 body (fst (for_ l1 body acc w)) (snd (for_ l1 body acc w)).
Proof.
  revert acc w. induction l1 as [| a l1 IH]; intros acc w; [reflexivity |].
  cbn [app for_]. unfold bind. destruct (body a acc w) as [acc' w']. apply IH.
Qed.

Section EntryFacts.

Variable network : list Request -> string -> Outcome.
Variable find_all_a_href : string -> list string.

Lemma statuses_In h links link status :
  In (link, status) (statuses network h links) ->
  In link links /\ exists h', status = recorded (network h' link).
Proof.
  revert h. induction links as [| l links IH]; intros h; cbn; [intros [] |].
  intros [H | H].
  - injection H as <- <-. split; [now left | now exists h].
  - destruct (IH _ H) as [Hin Hex]. split; [now right | exact Hex].
Qed.

Lemma page_value_In h url link status :
  In (link, status) (page_value network find_all_a_href h url) ->
  startswith link "http" = true /\ exists h', status = recorded (network h' link).
Proof.
  unfold page_value. destruct (network h url) as [response | e]; [| intros []].
  intros H. apply statuses_In in H. destruct H as [Hin Hex].
  apply filter_In in Hin. split; [apply Hin | exact Hex].
Qed.

(** A seed that does not come again keeps its slot's value. *)
Lemma seeds_loop_get_other urls acc w url default :
  ~ In url urls ->
  PyDict.get
    (fst (for_ urls
               (fun url result =>
                  v <- scan_page network find_all_a_href url ;;
                  ret (PyDict.setitem result url v))
               acc w))
    url default
  = PyDict.get acc url default.
Proof.
  revert acc w. induction urls as [| u urls IH]; intros acc w Hnot; [reflexivity |].
  rewrite seeds_loop_cons, IH by (intros H; apply Hnot; now right).
  apply PyDictFacts.get_setitem_other. intros ->. apply Hnot. now left.
Qed.

End EntryFacts.

(** X3 (extract_http_links, lines 44-58).  Every link recorded in the
    report starts with ["http"]. *)
Theorem recorded_links_start_with_http network find_all_a_href urls w url links link status :
  In (url, links) (fst (extract_http_links network find_all_a_href urls w)) ->
  In (link, status) links ->
  startswith link "http" = true.
Proof.
  intros Hentry Hlink. apply report_entries in Hentry. destruct Hentry as [h [_ ->]].
  now apply page_value_In in Hlink.
Qed.

Lemma recorded_links_start_with_http_witness :
  startswith "http://x.example" "http" = true.
Proof.
  apply (recorded_links_start_with_http
           server_b scan_anchors [seed_b] fresh seed_b
           [("http://x.example", 404%Z); ("http://x.example", 404%Z)]
           "http://x.example" 404%Z).
  - left. reflexivity.
  - left. reflexivity.
Defined.

(** X5 (extract_http_links, lines 37-62).  When a seed occurs several
    times in the list, every occurrence is scanned, and the report holds
    under the seed the value of its last scan: earlier values are
    overwritten. *)
Theorem last_scan_of_a_seed_wins network find_all_a_href urls1 url urls2 w default :
  ~ In url urls2 ->
  PyDict.get (fst (extract_http_links network find_all_a_href (urls1 ++ url :: urls2) w))
             url default
  = fst (scan_page network find_all_a_href url
                   (snd (extract_http_links network find_all_a_href urls1 w))).
Proof.
  intros Hnot. unfold extract_http_links. rewrite for_app, seeds_loop_cons.
  rewrite seeds_loop_get_other by assumption.
  rewrite PyDictFacts.get_setitem_same, scan_page_run. reflexivity.
Qed.

Lemma last_scan_of_a_seed_wins_witness :
  PyDict.get
    (fst (extract_http_links
            (once [(seed_b, Returns (mkResponse 200 body_b))]) scan_anchors
            ([seed_b] ++ seed_b :: []) fresh))
    seed_b [("", 1%Z)]
  = [].
Proof.
  apply (last_scan_of_a_seed_wins
           (once [(seed_b, Returns (mkResponse 200 body_b))]) scan_anchors
           [seed_b] seed_b [] fresh [("", 1%Z)]).
  intros [].
Defined.

(** ** Runs against a network without memory *)

Section StatelessFacts.

Variable network : list Request -> string -> Outcome.
Variable find_all_a_href : string -> list string.
Hypothesis network_stateless : stateless network.

Lemma statuses_stateless h h' links :
  statuses network h links = statuses network h' links.
Proof.
  revert h h'. induction links as [| l links IH]; intros h h'; [reflexivity |].
  cbn. rewrite (network_stateless h h' l). f_equal. apply IH.
Qed.

Lemma page_value_stateless h h' url :
  page_value network find_all_a_href h url = page_value network find_all_a_href h' url.
Proof.
  unfold page_value. rewrite (network_stateless h h' url).
  destruct (network h' url); [apply statuses_stateless | reflexivity].
Qed.

(** A dictionary that holds under each key the value [f] gives for it
    still does after an assignment of that kind. *)
Lemma setitem_tabulated {V : Type} (f : string -> V) (d : PyDict.dict V) (u : string) :
  d = map (fun k => (k, f k)) (PyDict.keys d) ->
  PyDict.setitem d u (f u)
  = map (fun k => (k, f k)) (PyDict.keys (PyDict.setitem d u (f u))).
Proof.
  induction d as [| [k v] d IH]; intros H; [reflexivity |].
  cbn in H. injection H as Hv Hd. cbn [PyDict.setitem].
  destruct (String.eqb_spec k u) as [-> | Hne]; cbn.
  - now rewrite <- Hd.
  - rewrite <- Hv. f_equal. apply IH. exact Hd.
Qed.

Lemma seeds_loop_tabulated urls acc w :
  acc = map (fun k => (k, page_value network find_all_a_href [] k)) (PyDict.keys acc) ->
  fst (for_ urls
            (fun url result =>
               v <- scan_page network find_all_a_href url ;;
               ret (PyDict.setitem result url v))
            acc w)
  = map (fun k => (k, page_value network find_all_a_href [] k))
        (PyDict.keys
           (fst (for_ urls
                      (fun url result =>
                         v <- scan_page network find_all_a_href url ;;
                         ret (PyDict.setitem result url v))
                      acc w))).
Proof.
  revert acc w. induction urls as [| url urls IH]; intros acc w Hacc; [exact Hacc |].
  rewrite seeds_loop_cons. apply IH.
  rewrite (page_value_stateless (sent w) [] url).
  now apply (setitem_tabulated (page_value network find_all_a_href [])).
Qed.

Lemma report_stateless urls w :
  fst (extract_http_links network find_all_a_href urls w)
  = map (fun url => (url, page_value network find_all_a_href [] url)) (distinct urls).
Proof.
  rewrite <- (report_keys network find_all_a_href urls w).
  unfold extract_http_links. apply seeds_loop_tabulated. reflexivity.
Qed.

Lemma seeds_loop_sent_stateless urls acc w :
  sent (snd (for_ urls
                  (fun url result =>
                     v <- scan_page network find_all_a_href url ;;
                     ret (PyDict.setitem result url v))
                  acc w))
  = sent w ++ flat_map (page_requests network find_all_a_href []) urls.
Proof.
  revert acc w. induction urls as [| url urls IH]; intros acc w.
  - cbn. now rewrite app_nil_r.
  - rewrite seeds_loop_cons, IH. cbn [sent flat_map].
    unfold page_requests at 1 3.
    rewrite (page_value_stateless (sent w) [] url). now rewrite <- app_assoc.
Qed.

End StatelessFacts.

Lemma distinct_idempotent (l : list string) : distinct (distinct l) = distinct l.
Proof. apply distinct_NoDup, NoDup_distinct. Qed.

(** X6 (extract_http_links, lines 24-64).  Against a network whose answers
    do not depend on earlier requests, the report lists the distinct seeds
    in the order of their first occurrences, each with the links of its
    page and the statuses those links give. *)
Theorem report_of_stateless_network network find_all_a_href urls w :
  stateless network ->
  fst (extract_http_links network find_all_a_href urls w)
  = map (fun url => (url, fst (scan_page network find_all_a_href url fresh)))
        (distinct urls).
Proof.
  intros Hs. rewrite report_stateless by assumption.
  apply map_ext. intros url. now rewrite scan_page_run.
Qed.

Lemma report_of_stateless_network_witness :
  fst (extract_http_links server_b scan_anchors [seed_b; seed_a; seed_b] fresh)
  = [ (seed_b, [("http://x.example", 404%Z); ("http://x.example", 404%Z)]);
      (seed_a, []) ].
Proof.
  apply (report_of_stateless_network server_b scan_anchors [seed_b; seed_a; seed_b] fresh).
  intros h h' url. reflexivity.
Defined.

(** X7 (extract_http_links, lines 24-64).  Against a network whose answers
    do not depend on earlier requests, the report is the same whatever was
    requested before the run, so a second run repeats the first, and
    repeating seeds in the list does not change it. *)
Theorem stateless_report_is_repeatable network find_all_a_href urls w w' :
  stateless network ->
  fst (extract_http_links network find_all_a_href urls w)
  = fst (extract_http_links network find_all_a_href urls w') /\
  fst (extract_http_links network find_all_a_href urls
                          (snd (extract_http_links network find_all_a_href urls w)))
  = fst (extract_http_links network find_all_a_href urls w) /\
  fst (extract_http_links network find_all_a_href (distinct urls) w)
  = fst (extract_http_links network find_all_a_href urls w).
Proof.
  intros Hs. rewrite !report_stateless by assumption.
  rewrite distinct_idempotent. repeat split.
Qed.

Lemma stateless_report_is_repeatable_witness :
  fst (extract_http_links (scenario Timeout) scan_anchors [seed_a]
                          (snd (extract_http_links (scenario Timeout) scan_anchors
                                                   [seed_a] fresh)))
  = fst (extract_http_links (scenario Timeout) scan_anchors [seed_a] fresh).
Proof.
  apply (stateless_report_is_repeatable (scenario Timeout) scan_anchors [seed_a] fresh fresh).
  intros h h' url. reflexivity.
Defined.

(** ** The command line *)

Lemma last_cons {A : Type} (l : list A) (a d : A) : last (a :: l) d = last l a.
Proof.
  revert a d. induction l as [| b l IH]; intros a d; [reflexivity |].
  change (last (a :: b :: l) d) with (last (b :: l) d). now rewrite !IH.
Qed.

Lemma last_Forall {A : Type} (P : A -> Prop) (l : list A) (d : A) :
  Forall P l -> P d -> P (last l d).
Proof.
  revert d. induction l as [| a l IH]; intros d Hl Hd; [exact Hd |].
  rewrite last_cons. inversion Hl; subst. now apply IH.
Qed.

Lemma classify_args_from args urls output_file :
  fold_left
    (fun st arg =>
       if startswith arg "http" then (fst st ++ [arg], snd st) else (fst st, arg))
    args (urls, output_file)
  = (urls ++ filter (fun arg => startswith arg "http") args,
     last (filter (fun arg => negb (startswith arg "http")) args) output_file).
Proof.
  revert urls output_file. induction args as [| arg args IH]; intros urls output_file.
  - cbn. now rewrite app_nil_r.
  - cbn [fold_left filter fst snd].
    destruct (startswith arg "http"); rewrite IH; cbn [negb].
    + now rewrite <- app_assoc.
    + now rewrite last_cons.
Qed.

Lemma seeds_of_args_http args :
  seeds_of_args args <> [] /\
  Forall (fun url => startswith url "http" = true) (seeds_of_args args).
Proof.
  unfold seeds_of_args.
  destruct (filter (fun arg => startswith arg "http") args) as [| u us] eqn:E.
  - split; [discriminate | repeat constructor].
  - split; [discriminate |]. rewrite <- E. apply Forall_forall.
    intros url Hin. now apply filter_In in Hin.
Qed.

Lemma output_of_args_not_http args : startswith (output_of_args args) "http" = false.
Proof.
  unfold output_of_args.
  apply (last_Forall (fun o => startswith o "http" = false)); [| reflexivity].
  apply Forall_forall. intros o Hin. apply filter_In in Hin.
  destruct Hin as [_ H]. now apply negb_true_iff in H.
Qed.

(** ** The file written against a network without memory *)

Lemma get_tabulated {V : Type} (f : string -> V) (ks : list string) (k : string) (default : V) :
  In k ks -> PyDict.get (map (fun k => (k, f k)) ks) k default = f k.
Proof.
  induction ks as [| k' ks IH]; [intros [] |]. intros Hin. cbn.
  destruct (String.eqb_spec k' k) as [-> | Hne]; [reflexivity |].
  destruct Hin as [-> | Hin]; [contradiction | now apply IH].
Qed.

(** X9 (save_links_to_markdown with extract_http_links, lines 66-98).
    Against a network whose answers do not depend on earlier requests, the
    file written is the table header followed, for every seed of the list
    in order, by one row per http link of the seed's page with the status
    that link gives, or by the placeholder row when the page cannot be
    fetched or has no http link. *)
Theorem markdown_of_stateless_network network find_all_a_href urls filename w :
  stateless network ->
  PyDict.get
    (files (snd (save_links_to_markdown network find_all_a_href urls filename w)))
    filename ""
  = (table_header
       ++ join (map (fun url =>
                       match fst (scan_page network find_all_a_href url fresh) with
                       | [] => placeholder_row url
                       | links => join (map (link_row url) links)
                       end)
                    urls))%string.
Proof.
  intros Hs. rewrite save_links_to_markdown_run. cbn [snd files].
  rewrite PyDictFacts.get_setitem_same, fold_seed_rows. f_equal. f_equal.
  apply map_ext_in. intros url Hin. unfold seed_block.
  rewrite report_stateless by assumption.
  rewrite (get_tabulated (page_value network find_all_a_href []))
    by now apply In_distinct.
  now rewrite scan_page_run.
Qed.

Lemma markdown_of_stateless_network_witness :
  PyDict.get
    (files (snd (save_links_to_markdown (scenario Timeout) scan_anchors
                                        [seed_a; seed_b] "links.md" fresh)))
    "links.md" ""
  = (table_header
       ++ "| https://a.example/page | https://x.example | 200 |" ++ LF
       ++ "| https://a.example/page | https://y.example | 0 |" ++ LF
       ++ "| http://b.example | No links found or URL unreachable | - |" ++ LF)%string.
Proof.
  apply (markdown_of_stateless_network (scenario Timeout) scan_anchors
                                       [seed_a; seed_b] "links.md" fresh).
  intros h h' url. reflexivity.
Defined.

(** ** The full program: what every run does *)

Section FullRuns.

Context {Disk : Type}.
Variable lib_get : list Request -> string -> Z -> Full.Reply * Z.
Variable find_all_a_href : string -> option (list string).

Lemma full_bind_ok {A B : Type} (m : Full.E A) (k : A -> Full.E B)
      (st st1 : Full.State Disk) (a : A) :
  m st = (Full.Ok a, st1) -> Full.bind m k st = k a st1.
Proof. intros H. unfold Full.bind. now rewrite H. Qed.

Lemma full_bind_raised {A B : Type} (m : Full.E A) (k : A -> Full.E B)
      (st st1 : Full.State Disk) (x : Full.Uncaught) :
  m st = (Full.Raised x, st1) -> Full.bind m k st = (Full.Raised x, st1).
Proof. intros H. unfold Full.bind. now rewrite H. Qed.

Lemma full_get_link_status_run link (st : Full.State Disk) :
  Full.get_link_status lib_get link st =
  (match fst (lib_get (Full.calls st) link 10%Z) with
   | Full.Completes o => Full.Ok (link, recorded o)
   | Full.Escapes => Full.Raised Full.LibraryError
   end,
   Full.mkState (Full.calls st ++ [get10 link])
                (Full.clock st + snd (lib_get (Full.calls st) link 10%Z))
                (Full.disk st)).
Proof.
  unfold Full.get_link_status, Full.bind, Full.requests_get, Full.ret.
  destruct (fst (lib_get (Full.calls st) link 10%Z)) as [[response | e] |]; reflexivity.
Qed.

(** One turn of the loop over the links. *)
Lemma full_check_links_cons l links acc (st : Full.State Disk) :
  Full.for_ (l :: links)
            (fun link status_links =>
               Full.bind (Full.get_link_status lib_get link)
                         (fun s => Full.ret (status_links ++ [s])))
            acc st
  = match fst (lib_get (Full.calls st) l 10%Z) with
    | Full.Completes o =>
        Full.for_ links
                  (fun link status_links =>
                     Full.bind (Full.get_link_status lib_get link)
                               (fun s => Full.ret (status_links ++ [s])))
                  (acc ++ [(l, recorded o)])
                  (Full.mkState (Full.calls st ++ [get10 l])
                                (Full.clock st + snd (lib_get (Full.calls st) l 10%Z))
                                (Full.disk st))
    | Full.Escapes =>
        (Full.Raised Full.LibraryError,
         Full.mkState (Full.calls st ++ [get10 l])
                      (Full.clock st + snd (lib_get (Full.calls st) l 10%Z))
                      (Full.disk st))
    end.
Proof.
  cbn [Full.for_]. unfold Full.bind at 1 2. rewrite full_get_link_status_run.
  destruct (fst (lib_get (Full.calls st) l 10%Z)); reflexivity.
Qed.

(** The loop over the links requests a first part of them, in order, and
    nothing else. *)
Lemma full_check_links_calls links acc (st : Full.State Disk) :
  exists n,
    Full.calls
      (snd (Full.for_ links
                      (fun link status_links =>
                         Full.bind (Full.get_link_status lib_get link)
                                   (fun s => Full.ret (status_links ++ [s])))
                      acc st))
    = Full.calls st ++ map get10 (firstn n links) /\
    Full.disk
      (snd (Full.for_ links
                      (fun link status_links =>
                         Full.bind (Full.get_link_status lib_get link)
                                   (fun s => Full.ret (status_links ++ [s])))
                      acc st))
    = Full.disk st.
Proof.
  revert acc st. induction links as [| l links IH]; intros acc st.
  - exists 0%nat. cbn. now rewrite app_nil_r.
  - rewrite full_check_links_cons.
    destruct (fst (lib_get (Full.calls st) l 10%Z)) as [o |].
    + destruct (IH (acc ++ [(l, recorded o)])
                   (Full.mkState (Full.calls st ++ [get10 l])
                                 (Full.clock st + snd (lib_get (Full.calls st) l 10%Z))
                                 (Full.disk st))) as [n [Hc Hd]].
      exists (S n). rewrite Hc, Hd. cbn [firstn map Full.calls Full.disk].
      now rewrite <- app_assoc.
    + exists 1%nat. cbn. split; reflexivity.
Qed.

Lemma Forall_get10 (links : list string) :
  Forall (fun r => req_timeout r = 10%Z) (map get10 links).
Proof.
  apply Forall_forall. intros r Hr. apply in_map_iff in Hr.
  destruct Hr as [l [<- _]]. reflexivity.
Qed.

(** The scan of a seed, step by step. *)
Lemma full_scan_page_run url (st : Full.State Disk) :
  Full.scan_page lib_get find_all_a_href url st
  = let st1 := Full.mkState (Full.calls st ++ [get10 url])
                            (Full.clock st + snd (lib_get (Full.calls st) url 10%Z))
                            (Full.disk st) in
    match fst (lib_get (Full.calls st) url 10%Z) with
    | Full.Completes (Returns response) =>
        match find_all_a_href (text response) with
        | Some hrefs =>
            Full.for_ (collect_links hrefs)
                      (fun link status_links =>
                         Full.bind (Full.get_link_status lib_get link)
                                   (fun s => Full.ret (status_links ++ [s])))
                      [] st1
        | None => (Full.Raised Full.MarkupError, st1)
        end
    | Full.Completes (Raises _) => (Full.Ok [], st1)
    | Full.Escapes => (Full.Raised Full.LibraryError, st1)
    end.
Proof.
  unfold Full.scan_page, Full.bind at 1, Full.requests_get. cbv zeta.
  destruct (fst (lib_get (Full.calls st) url 10%Z)) as [[response | e] |];
    [| reflexivity | reflexivity].
  unfold Full.BeautifulSoup_hrefs, Full.bind at 1.
  destruct (find_all_a_href (text response)) as [hrefs |]; [| reflexivity].
  unfold Full.check_links, Full.bind.
  destruct (Full.for_ (collect_links hrefs) _ [] _) as [[v | x] st2]; reflexivity.
Qed.

(** A scan requests the seed with timeout 10, then links with timeout 10,
    and leaves the file system alone. *)
Lemma full_scan_page_calls url (st : Full.State Disk) :
  exists trace,
    Full.calls (snd (Full.scan_page lib_get find_all_a_href url st))
    = Full.calls st ++ get10 url :: trace /\
    Forall (fun r => req_timeout r = 10%Z) trace /\
    Full.disk (snd (Full.scan_page lib_get find_all_a_href url st)) = Full.disk st.
Proof.
  rewrite full_scan_page_run. cbv zeta.
  destruct (fst (lib_get (Full.calls st) url 10%Z)) as [[response | e] |].
  - destruct (find_all_a_href (text response)) as [hrefs |].
    + destruct (full_check_links_calls
                  (collect_links hrefs) []
                  (Full.mkState (Full.calls st ++ [get10 url])
                                (Full.clock st + snd (lib_get (Full.calls st) url 10%Z))
                                (Full.disk st))) as [n [Hc Hd]].
      exists (map get10 (firstn n (collect_links hrefs))).
      rewrite Hc, Hd. cbn [Full.calls Full.disk]. rewrite <- app_assoc.
      repeat split. apply Forall_get10.
    + exists []. cbn. repeat split. constructor.
  - exists []. cbn. repeat split. constructor.
  - exists []. cbn. repeat split. constructor.
Qed.

(** One turn of the loop over the seeds. *)
Lemma full_seeds_loop_cons url urls acc (st : Full.State Disk) :
  Full.for_ (url :: urls)
            (fun url result =>
               Full.bind (Full.scan_page lib_get find_all_a_href url)
                         (fun v => Full.ret (PyDict.setitem result url v)))
            acc st
  = match Full.scan_page lib_get find_all_a_href url st with
    | (Full.Ok v, st1) =>
        Full.for_ urls
                  (fun url result =>
                     Full.bind (Full.scan_page lib_get find_all_a_href url)
                               (fun v => Full.ret (PyDict.setitem result url v)))
                  (PyDict.setitem acc url v) st1
    | (Full.Raised x, st1) => (Full.Raised x, st1)
    end.
Proof.
  cbn [Full.for_]. unfold Full.bind at 1 2.
  destruct (Full.scan_page lib_get find_all_a_href url st) as [[v | x] st1]; reflexivity.
Qed.

Lemma full_seeds_loop_calls urls acc (st : Full.State Disk) :
  exists trace,
    Full.calls
      (snd (Full.for_ urls
                      (fun url result =>
                         Full.bind (Full.scan_page lib_get find_all_a_href url)
                                   (fun v => Full.ret (PyDict.setitem result url v)))
                      acc st))
    = Full.calls st ++ trace /\
    Forall (fun r => req_timeout r = 10%Z) trace /\
    Full.disk
      (snd (Full.for_ urls
                      (fun url result =>
                         Full.bind (Full.scan_page lib_get find_all_a_href url)
                                   (fun v => Full.ret (PyDict.setitem result url v)))
                      acc st))
    = Full.disk st.
Proof.
  revert acc st. induction urls as [| url urls IH]; intros acc st.
  - exists []. cbn. rewrite app_nil_r. repeat split. constructor.
  - rewrite full_seeds_loop_cons.
    destruct (full_scan_page_calls url st) as [t1 [Hc1 [Ht1 Hd1]]].
    destruct (Full.scan_page lib_get find_all_a_href url st) as [[v | x] st1];
      cbn [snd] in Hc1, Hd1.
    + destruct (IH (PyDict.setitem acc url v) st1) as [t2 [Hc2 [Ht2 Hd2]]].
      exists ((get10 url :: t1) ++ t2). rewrite Hc2, Hd2, Hc1, Hd1, <- app_assoc.
      repeat split. apply Forall_app. split; [constructor; [reflexivity | exact Ht1] | exact Ht2].
    + exists (get10 url :: t1). cbn [snd]. rewrite Hc1, Hd1. repeat split.
      constructor; [reflexivity | exact Ht1].
Qed.

Lemma full_for_app {A S : Type} (l1 l2 : list A) (body : A -> S -> Full.E S)
      (acc : S) (st : Full.State Disk) :
  Full.for_ (l1 ++ l2) body acc st
  = match Full.for_ l1 body acc st with
    | (Full.Ok acc1, st1) => Full.for_ l2 body acc1 st1
    | (Full.Raised x, st1) => (Full.Raised x, st1)
    end.
Proof.
  revert acc st. induction l1 as [| a l1 IH]; intros acc st; [reflexivity |].
  cbn [app Full.for_]. unfold Full.bind.
  destruct (body a acc st) as [[acc' | x] st']; [apply IH | reflexivity].
Qed.

End FullRuns.

(** ** The full program when nothing escapes

    When the library raises nothing outside RequestException and the parser
    accepts every page, the checker completes, and its report and its
    requests are those described in the first part. *)

Section Refinement.

Context {Disk : Type}.
Variable lib_get : list Request -> string -> Z -> Full.Reply * Z.
Variable find_all_a_href : string -> option (list string).
Variable network : list Request -> string -> Outcome.
Variable parser : string -> list string.
Hypothesis lib_agrees : agrees lib_get network.
Hypothesis parser_accepts : accepts find_all_a_href parser.

Lemma full_check_links_from links acc (st : Full.State Disk) :
  fst (Full.for_ links
                 (fun link status_links =>
                    Full.bind (Full.get_link_status lib_get link)
                              (fun s => Full.ret (status_links ++ [s])))
                 acc st)
  = Full.Ok (acc ++ statuses network (Full.calls st) links) /\
  Full.calls
    (snd (Full.for_ links
                    (fun link status_links =>
                       Full.bind (Full.get_link_status lib_get link)
                                 (fun s => Full.ret (status_links ++ [s])))
                    acc st))
  = Full.calls st ++ map get10 links /\
  Full.disk
    (snd (Full.for_ links
                    (fun link status_links =>
                       Full.bind (Full.get_link_status lib_get link)
                                 (fun s => Full.ret (status_links ++ [s])))
                    acc st))
  = Full.disk st.
Proof.
  revert acc st. induction links as [| l links IH]; intros acc st.
  - cbn. now rewrite !app_nil_r.
  - rewrite full_check_links_cons, (lib_agrees (Full.calls st) l).
    destruct (IH (acc ++ [(l, recorded (network (Full.calls st) l))])
                 (Full.mkState (Full.calls st ++ [get10 l])
                               (Full.clock st + snd (lib_get (Full.calls st) l 10%Z))
                               (Full.disk st))) as [Hv [Hc Hd]].
    rewrite Hv, Hc, Hd. cbn [Full.calls Full.disk statuses map].
    now rewrite <- !app_assoc.
Qed.

Lemma full_scan_page_agrees url (st : Full.State Disk) :
  fst (Full.scan_page lib_get find_all_a_href url st)
  = Full.Ok (page_value network parser (Full.calls st) url) /\
  Full.calls (snd (Full.scan_page lib_get find_all_a_href url st))
  = Full.calls st ++ page_requests network parser (Full.calls st) url /\
  Full.disk (snd (Full.scan_page lib_get find_all_a_href url st)) = Full.disk st.
Proof.
  rewrite full_scan_page_run. cbv zeta.
  rewrite (lib_agrees (Full.calls st) url). unfold page_requests, page_value.
  destruct (network (Full.calls st) url) as [response | e].
  - rewrite (parser_accepts (text response)), collect_links_filter.
    destruct (full_check_links_from
                (filter (fun href => startswith href "http") (parser (text response))) []
                (Full.mkState (Full.calls st ++ [get10 url])
                              (Full.clock st + snd (lib_get (Full.calls st) url 10%Z))
                              (Full.disk st))) as [Hv [Hc Hd]].
    rewrite Hv, Hc, Hd. cbn [Full.calls Full.disk app].
    now rewrite statuses_fst, <- app_assoc.
  - cbn. repeat split.
Qed.

(** The loop over the seeds computes what the loop of the first part
    computes, started from the same dictionary and the same requests. *)
Lemma full_seeds_loop_agrees urls acc (st : Full.State Disk) (w : World) :
  sent w = Full.calls st ->
  fst (Full.for_ urls
                 (fun url result =>
                    Full.bind (Full.scan_page lib_get find_all_a_href url)
                              (fun v => Full.ret (PyDict.setitem result url v)))
                 acc st)
  = Full.Ok (fst (for_ urls
                       (fun url result =>
                          v <- scan_page network parser url ;;
                          ret (PyDict.setitem result url v))
                       acc w)) /\
  Full.calls
    (snd (Full.for_ urls
                    (fun url result =>
                       Full.bind (Full.scan_page lib_get find_all_a_href url)
                                 (fun v => Full.ret (PyDict.setitem result url v)))
                    acc st))
  = sent (snd (for_ urls
                    (fun url result =>
                       v <- scan_page network parser url ;;
                       ret (PyDict.setitem result url v))
                    acc w)) /\
  Full.disk
    (snd (Full.for_ urls
                    (fun url result =>
                       Full.bind (Full.scan_page lib_get find_all_a_href url)
                                 (fun v => Full.ret (PyDict.setitem result url v)))
                    acc st))
  = Full.disk st.
Proof.
  revert acc st w. induction urls as [| url urls IH]; intros acc st w Hs.
  - cbn. repeat split. now rewrite Hs.
  - rewrite full_seeds_loop_cons, seeds_loop_cons.
    destruct (full_scan_page_agrees url st) as [Hv [Hc Hd]].
    destruct (Full.scan_page lib_get find_all_a_href url st) as [r st1].
    cbn [fst snd] in Hv, Hc, Hd. subst r. rewrite Hs.
    destruct (IH (PyDict.setitem acc url (page_value network parser (Full.calls st) url))
                 st1
                 (mkWorld (Full.calls st
                             ++ page_requests network parser (Full.calls st) url)
                          (files w)))
      as [Hv' [Hc' Hd']]; [now rewrite Hc |].
    rewrite Hv', Hc', Hd', Hd. repeat split.
Qed.

Lemma full_extract_agrees urls (st : Full.State Disk) :
  fst (Full.extract_http_links lib_get find_all_a_href urls st)
  = Full.Ok (fst (extract_http_links network parser urls
                                     (mkWorld (Full.calls st) PyDict.empty))) /\
  Full.calls (snd (Full.extract_http_links lib_get find_all_a_href urls st))
  = sent (snd (extract_http_links network parser urls
                                  (mkWorld (Full.calls st) PyDict.empty))) /\
  Full.disk (snd (Full.extract_http_links lib_get find_all_a_href urls st)) = Full.disk st.
Proof.
  unfold Full.extract_http_links, extract_http_links.
  apply full_seeds_loop_agrees. reflexivity.
Qed.

End Refinement.

(** ** The library: redirects and timeouts *)

Lemma follow_final wire h timeout fuel url status location body :
  fst (Requests.perform timeout (wire h url)) = Requests.Answer status location body ->
  Requests.get_redirect_target status location = None ->
  Requests.follow wire h timeout fuel url
  = (Full.Completes (Returns (mkResponse status body)),
     snd (Requests.perform timeout (wire h url))).
Proof.
  intros Hans Hnone. destruct fuel; cbn [Requests.follow]; now rewrite Hans, Hnone.
Qed.

Lemma follow_redirect wire h timeout fuel url status location body target :
  fst (Requests.perform timeout (wire h url)) = Requests.Answer status location body ->
  Requests.get_redirect_target status location = Some target ->
  fst (Requests.follow wire h timeout (S fuel) url)
  = fst (Requests.follow wire h timeout fuel target).
Proof.
  intros Hans Hsome. cbn [Requests.follow]. rewrite Hans, Hsome.
  destruct (Requests.follow wire h timeout fuel target). reflexivity.
Qed.

Lemma redirect_target_In status target :
  In status Requests.REDIRECT_STATI ->
  target <> "" ->
  Requests.get_redirect_target status (Some target) = Some target.
Proof.
  intros Hin Hne. unfold Requests.get_redirect_target.
  destruct target as [| c target]; [contradiction |].
  replace (existsb (Z.eqb status) Requests.REDIRECT_STATI) with true; [reflexivity |].
  symmetry. apply existsb_exists. exists status. split; [exact Hin | apply Z.eqb_refl].
Qed.

Lemma elapse_timed_out timeout waits :
  Exists (fun wt => (timeout < wt)%Z) waits ->
  fst (Requests.elapse timeout waits) = true.
Proof.
  induction waits as [| wt waits IH]; intros H; [inversion H |].
  cbn [Requests.elapse]. destruct (Z.ltb_spec timeout wt) as [_ | Hle]; [reflexivity |].
  inversion H as [? ? Hlt | ? ? Hex]; subst; [lia |].
  specialize (IH Hex). destruct (Requests.elapse timeout waits). exact IH.
Qed.

Lemma elapse_in_time timeout waits :
  Forall (fun wt => (wt <= timeout)%Z) waits ->
  Requests.elapse timeout waits = (false, fold_right Z.add 0%Z waits).
Proof.
  induction 1 as [| wt waits Hle _ IH]; [reflexivity |].
  cbn [Requests.elapse fold_right]. destruct (Z.ltb_spec timeout wt) as [Hlt | _]; [lia |].
  now rewrite IH.
Qed.

Lemma get_timed_out wire h url timeout :
  Exists (fun wt => (timeout < wt)%Z) (Requests.waits (wire h url)) ->
  fst (Requests.get wire h url timeout) = Full.Completes (Raises Timeout).
Proof.
  intros H. unfold Requests.get, Requests.max_redirects. cbn [Requests.follow].
  unfold Requests.perform. rewrite (elapse_timed_out _ _ H). reflexivity.
Qed.

(** ** Claims on the full program *)




(** C9, at the failing input.  When [requests.get] raises an exception
    outside RequestException, as it does for the link [http://a..b],
    [get_link_status] returns no pair: the exception passes through it,
    after the one call.  When the call completes, the pair starts with the
    link. *)
Theorem get_link_status_lets_other_exceptions_through
        (Disk : Type) lib_get link (st : Full.State Disk) :
  (fst (lib_get (Full.calls st) link 10%Z) = Full.Escapes ->
   fst (Full.get_link_status lib_get link st) = Full.Raised Full.LibraryError /\
   Full.calls (snd (Full.get_link_status lib_get link st))
   = Full.calls st ++ [mkRequest link 10]) /\
  (forall o,
      fst (lib_get (Full.calls st) link 10%Z) = Full.Completes o ->
      exists status, fst (Full.get_link_status lib_get link st) = Full.Ok (link, status)).
Proof.
  rewrite full_get_link_status_run. cbn [fst snd Full.calls]. split.
  - intros ->. split; reflexivity.
  - intros o ->. now exists (recorded o).
Qed.

Lemma get_link_status_lets_other_exceptions_through_witness :
  fst (Full.get_link_status (Requests.get wire_w) link_bad start)
  = Full.Raised Full.LibraryError.
Proof.
  apply (proj1 (get_link_status_lets_other_exceptions_through
                  (PyDict.dict string) (Requests.get wire_w) link_bad start)).
  vm_compute. reflexivity.
Defined.






(** ** The renderer and the command line, on the full program *)

Section FullRender.

Context {Disk : Type}.
Variable lib_get : list Request -> string -> Z -> Full.Reply * Z.
Variable find_all_a_href : string -> option (list string).
Variable os_path_dirname : string -> string.
Variable os_makedirs : string -> Disk -> bool * Disk.
Variable write_text : string -> string -> Disk -> bool * Disk.

Lemma os_call_run (op : Disk -> bool * Disk) (st : Full.State Disk) :
  Full.os_call op st
  = (if fst (op (Full.disk st)) then Full.Ok tt else Full.Raised Full.OSError,
     Full.mkState (Full.calls st) (Full.clock st) (snd (op (Full.disk st)))).
Proof. unfold Full.os_call. destruct (fst (op (Full.disk st))); reflexivity. Qed.

(** The renderer, step by step. *)
Lemma full_save_run urls filename (st : Full.State Disk) :
  Full.save_links_to_markdown lib_get find_all_a_href os_path_dirname os_makedirs
                              write_text urls filename st
  = match Full.extract_http_links lib_get find_all_a_href urls st with
    | (Full.Ok links_dict, st1) =>
        let contents := fold_left (seed_rows links_dict) urls table_header in
        match os_path_dirname filename with
        | EmptyString => Full.os_call (write_text filename contents) st1
        | String c dir =>
            match Full.os_call (os_makedirs (String c dir)) st1 with
            | (Full.Ok _, st2) => Full.os_call (write_text filename contents) st2
            | (Full.Raised x, st2) => (Full.Raised x, st2)
            end
        end
    | (Full.Raised x, st1) => (Full.Raised x, st1)
    end.
Proof.
  unfold Full.save_links_to_markdown, Full.bind at 1.
  destruct (Full.extract_http_links lib_get find_all_a_href urls st)
    as [[links_dict | x] st1]; [| reflexivity].
  cbv zeta. destruct (os_path_dirname filename) as [| c dir]; reflexivity.
Qed.

Lemma full_main_without_help argv (st : Full.State Disk) :
  existsb (String.eqb (nth 1 argv "")) ["-h"; "--help"] = false ->
  Full.main lib_get find_all_a_href os_path_dirname os_makedirs write_text argv st
  = Full.run_checker lib_get find_all_a_href os_path_dirname os_makedirs write_text
                     (seeds_of_args (tl argv)) (output_of_args (tl argv)) st.
Proof.
  intros Hflag. unfold Full.main. rewrite Hflag.
  destruct (1 <? length argv)%nat eqn:Hlen.
  - unfold classify_args. rewrite classify_args_from. cbn [fst snd app].
    unfold seeds_of_args, output_of_args.
    destruct (filter (fun arg => startswith arg "http") (tl argv)); reflexivity.
  - destruct argv as [| prog [| arg argv]]; [reflexivity | reflexivity | discriminate Hlen].
Qed.

Lemma full_run_checker_run urls output_file (st : Full.State Disk) :
  Full.run_checker lib_get find_all_a_href os_path_dirname os_makedirs write_text
                   urls output_file st
  = match Full.save_links_to_markdown lib_get find_all_a_href os_path_dirname
                                      os_makedirs write_text urls output_file st with
    | (Full.Ok _, st1) =>
        (Full.Ok (["Link check completed. Results saved to " ++ output_file]%string,
                  Returned), st1)
    | (Full.Raised x, st1) => (Full.Raised x, st1)
    end.
Proof.
  unfold Full.run_checker, Full.bind.
  destruct (Full.save_links_to_markdown _ _ _ _ _ _ _ _) as [[u | x] st1]; reflexivity.
Qed.

End FullRender.

(** X2 (save_links_to_markdown, lines 75-98).  The renderer runs the
    checker first and sends no request of its own.  When the checker raises,
    the renderer raises the same exception and no directory is made and no
    file opened.  When the checker returns and the file cannot be written,
    the renderer raises after all the requests.  When the file's name has no
    directory part and the write succeeds, that single write of the table
    is the only change to the file system. *)
Theorem renderer_runs_the_checker_then_writes
        (Disk : Type) lib_get find_all_a_href os_path_dirname os_makedirs write_text
        urls filename (st : Full.State Disk) :
  Full.calls (snd (Full.save_links_to_markdown
                     lib_get find_all_a_href os_path_dirname os_makedirs write_text
                     urls filename st))
  = Full.calls (snd (Full.extract_http_links lib_get find_all_a_href urls st)) /\
  (forall x,
      fst (Full.extract_http_links lib_get find_all_a_href urls st) = Full.Raised x ->
      fst (Full.save_links_to_markdown
             lib_get find_all_a_href os_path_dirname os_makedirs write_text
             urls filename st) = Full.Raised x /\
      Full.disk (snd (Full.save_links_to_markdown
                        lib_get find_all_a_href os_path_dirname os_makedirs write_text
                        urls filename st)) = Full.disk st) /\
  (forall links_dict,
      fst (Full.extract_http_links lib_get find_all_a_href urls st) = Full.Ok links_dict ->
      os_path_dirname filename = "" ->
      fst (Full.save_links_to_markdown
             lib_get find_all_a_href os_path_dirname os_makedirs write_text
             urls filename st)
      = (if fst (write_text filename
                            (fold_left (seed_rows links_dict) urls table_header)
                            (Full.disk st))
         then Full.Ok tt else Full.Raised Full.OSError) /\
      Full.disk (snd (Full.save_links_to_markdown
                        lib_get find_all_a_href os_path_dirname os_makedirs write_text
                        urls filename st))
      = snd (write_text filename
                        (fold_left (seed_rows links_dict) urls table_header)
                        (Full.disk st))).
Proof.
  rewrite full_save_run.
  destruct (full_seeds_loop_calls lib_get find_all_a_href urls PyDict.empty st)
    as [trace [_ [_ Hd]]].
  fold (@Full.extract_http_links Disk lib_get find_all_a_href urls) in Hd.
  destruct (Full.extract_http_links lib_get find_all_a_href urls st)
    as [[links_dict | x] st1]; cbn [fst snd] in *.
  - cbv zeta. split; [| split].
    + destruct (os_path_dirname filename) as [| c dir].
      * now rewrite os_call_run.
      * rewrite os_call_run.
        destruct (fst (os_makedirs (String c dir) (Full.disk st1)));
          [now rewrite os_call_run | reflexivity].
    + intros x H. discriminate H.
    + intros d H Hdir. injection H as <-. rewrite Hdir, os_call_run, Hd.
      split; reflexivity.
  - split; [reflexivity |]. split.
    + intros y H. injection H as <-. split; [reflexivity | exact Hd].
    + intros d H. discriminate H.
Qed.

Lemma renderer_runs_the_checker_then_writes_witness :
  fst (Full.save_links_to_markdown
         (lib_escaping link_bad server_r) (parser_of scan_anchors)
         dirname_double ram_makedirs ram_write [seed_b; seed_a] "links.md" start)
  = Full.Raised Full.LibraryError /\
  Full.disk (snd (Full.save_links_to_markdown
                    (lib_escaping link_bad server_r) (parser_of scan_anchors)
                    dirname_double ram_makedirs ram_write [seed_b; seed_a] "links.md" start))
  = Full.disk start.
Proof.
  apply (proj1 (proj2 (renderer_runs_the_checker_then_writes
                         (PyDict.dict string)
                         (lib_escaping link_bad server_r) (parser_of scan_anchors)
                         dirname_double ram_makedirs ram_write
                         [seed_b; seed_a] "links.md" start))
               Full.LibraryError).
  vm_compute. reflexivity.
Defined.

(** X10 (main, lines 116-142).  When the first argument after the program
    name is no help flag (or there is none), [main] runs the renderer: the
    seeds are the arguments that start with ["http"], in order, or the two
    default URLs when there is none; the output file is the last argument
    that does not start with ["http"], or [links.md] when there is none.
    It prints the completion message and returns when the renderer
    returns, and raises, printing nothing, when the renderer raises.  A
    help flag in a later position is taken as the output file's name. *)
Theorem main_runs_renderer_on_classified_args
        (Disk : Type) lib_get find_all_a_href os_path_dirname os_makedirs write_text
        argv (st : Full.State Disk) :
  nth_error argv 1 <> Some "-h" ->
  nth_error argv 1 <> Some "--help" ->
  Full.main lib_get find_all_a_href os_path_dirname os_makedirs write_text argv st
  = match Full.save_links_to_markdown
            lib_get find_all_a_href os_path_dirname os_makedirs write_text
            (match filter (fun arg => startswith arg "http") (tl argv) with
             | [] => default_urls
             | urls => urls
             end)
            (last (filter (fun arg => negb (startswith arg "http")) (tl argv)) "links.md")
            st with
    | (Full.Ok _, st1) =>
        (Full.Ok (["Link check completed. Results saved to "
                     ++ last (filter (fun arg => negb (startswith arg "http")) (tl argv))
                             "links.md"]%string,
                  Returned), st1)
    | (Full.Raised x, st1) => (Full.Raised x, st1)
    end.
Proof.
  intros H1 H2. rewrite full_main_without_help.
  - rewrite full_run_checker_run. reflexivity.
  - cbn [existsb]. destruct argv as [| prog [| arg argv]]; [reflexivity | reflexivity |].
    cbn [nth nth_error] in *.
    destruct (String.eqb_spec arg "-h") as [-> | _]; [now contradiction H1 |].
    destruct (String.eqb_spec arg "--help") as [-> | _]; [now contradiction H2 |].
    reflexivity.
Qed.

Lemma main_runs_renderer_on_classified_args_witness :
  fst (Full.main (lib_of server_b) (parser_of scan_anchors)
                 dirname_double ram_makedirs ram_write
                 ["link-checker.py"; "a.md"; seed_b; "-h"] start)
  = Full.Ok (["Link check completed. Results saved to -h"], Returned) /\
  fst (Full.main (lib_of server_b) (parser_of scan_anchors)
                 dirname_double ram_makedirs ram_write
                 ["link-checker.py"; seed_b; ""] start)
  = Full.Raised Full.OSError.
Proof.
  split.
  - rewrite (main_runs_renderer_on_classified_args
               (PyDict.dict string) (lib_of server_b) (parser_of scan_anchors)
               dirname_double ram_makedirs ram_write
               ["link-checker.py"; "a.md"; seed_b; "-h"] start);
      [vm_compute; reflexivity | cbn; discriminate | cbn; discriminate].
  - rewrite (main_runs_renderer_on_classified_args
               (PyDict.dict string) (lib_of server_b) (parser_of scan_anchors)
               dirname_double ram_makedirs ram_write
               ["link-checker.py"; seed_b; ""] start);
      [vm_compute; reflexivity | cbn; discriminate | cbn; discriminate].
Defined.

(** X11 (main, lines 116-141).  Whatever the arguments, [main] either
    prints the usage and exits with code 0 without touching anything, or
    runs the renderer on a seed list that is not empty and whose seeds all
    start with ["http"], with an output file whose name does not start with
    ["http"]; in that case it ends as the renderer ends: with the
    completion message, or with the renderer's exception and nothing
    printed. *)
Theorem main_seeds_are_http_and_output_is_not
        (Disk : Type) lib_get find_all_a_href os_path_dirname os_makedirs write_text
        argv (st : Full.State Disk) :
  Full.main lib_get find_all_a_href os_path_dirname os_makedirs write_text argv st
  = (Full.Ok (usage, SystemExit 0), st) \/
  exists urls output_file,
    urls <> [] /\
    Forall (fun url => startswith url "http" = true) urls /\
    startswith output_file "http" = false /\
    Full.main lib_get find_all_a_href os_path_dirname os_makedirs write_text argv st
    = match Full.save_links_to_markdown
              lib_get find_all_a_href os_path_dirname os_makedirs write_text
              urls output_file st with
      | (Full.Ok _, st1) =>
          (Full.Ok (["Link check completed. Results saved to " ++ output_file]%string,
                    Returned), st1)
      | (Full.Raised x, st1) => (Full.Raised x, st1)
      end.
Proof.
  destruct (existsb (String.eqb (nth 1 argv "")) ["-h"; "--help"]) eqn:Hflag.
  - left. unfold Full.main. rewrite Hflag.
    destruct argv as [| prog [| arg argv]]; [discriminate Hflag | discriminate Hflag |].
    reflexivity.
  - right. exists (seeds_of_args (tl argv)), (output_of_args (tl argv)).
    destruct (seeds_of_args_http (tl argv)) as [Hne Hall].
    repeat split; try assumption.
    + apply output_of_args_not_http.
    + rewrite full_main_without_help by assumption. apply full_run_checker_run.
Qed.

(** ** Statuses and the moment of their request *)

Lemma statuses_nth network links h k link :
  nth_error links k = Some link ->
  nth_error (statuses network h links) k
  = Some (link, recorded (network (h ++ map get10 (firstn k links)) link)).
Proof.
  revert h k. induction links as [| l links IH]; intros h k H.
  - destruct k; discriminate H.
  - destruct k as [| k]; cbn in H.
    + injection H as <-. cbn. now rewrite app_nil_r.
    + cbn [statuses nth_error firstn map]. rewrite (IH _ _ H).
      now rewrite <- app_assoc.
Qed.

(** X4 (extract_http_links and get_link_status, lines 16-22 and 53-55).
    The scan of a fetched page records, at the position of each collected
    link, that link with what its request yielded at the moment it was
    sent, that is after the requests already sent, the request for the seed
    and the requests for the links before it: the status code of the
    response, or 0 when the request raised a RequestException. *)
Theorem recorded_status_is_the_answer_at_that_moment
        network find_all_a_href url w response k link :
  network (sent w) url = Returns response ->
  nth_error (collect_links (find_all_a_href (text response))) k = Some link ->
  exists status,
    nth_error (fst (scan_page network find_all_a_href url w)) k = Some (link, status) /\
    match network
            (sent w
             ++ mkRequest url 10
                :: map (fun l => mkRequest l 10)
                       (firstn k (collect_links (find_all_a_href (text response)))))
            link with
    | Returns answer => status = status_code answer
    | Raises _ => status = 0%Z
    end.
Proof.
  intros Hpage Hk. rewrite scan_page_run. cbn [fst]. unfold page_value. rewrite Hpage.
  rewrite collect_links_filter in *.
  rewrite (statuses_nth network _ (sent w ++ [get10 url]) k link Hk).
  rewrite <- app_assoc. cbn [app]. eexists. split; [reflexivity |].
  fold get10.
  destruct (network _ link); reflexivity.
Qed.

Lemma recorded_status_is_the_answer_at_that_moment_witness :
  exists status,
    nth_error
      (fst (scan_page (once [ (seed_b, Returns (mkResponse 200 body_b));
                              ("http://x.example", Returns (mkResponse 404 "gone")) ])
                      scan_anchors seed_b fresh))
      1
    = Some ("http://x.example", status) /\
    match once [ (seed_b, Returns (mkResponse 200 body_b));
                 ("http://x.example", Returns (mkResponse 404 "gone")) ]
               (sent fresh
                ++ mkRequest seed_b 10
                   :: map (fun l => mkRequest l 10)
                          (firstn 1 (collect_links (scan_anchors
                                                      (text (mkResponse 200 body_b))))))
               "http://x.example" with
    | Returns answer => status = status_code answer
    | Raises _ => status = 0%Z
    end.
Proof.
  apply (recorded_status_is_the_answer_at_that_moment
           (once [ (seed_b, Returns (mkResponse 200 body_b));
                   ("http://x.example", Returns (mkResponse 404 "gone")) ])
           scan_anchors seed_b fresh (mkResponse 200 body_b) 1 "http://x.example").
  - reflexivity.
  - reflexivity.
Defined.

(** ** Runs of the full program that complete, and runs that do not *)



Section Aborts.

Context {Disk : Type}.
Variable lib_get : list Request -> string -> Z -> Full.Reply * Z.
Variable find_all_a_href : string -> option (list string).

(** Links whose calls complete are all checked. *)
Lemma full_check_links_completes links acc (st : Full.State Disk) :
  (forall h link, In link links -> exists o, fst (lib_get h link 10%Z) = Full.Completes o) ->
  exists v st1,
    Full.for_ links
              (fun link status_links =>
                 Full.bind (Full.get_link_status lib_get link)
                           (fun s => Full.ret (status_links ++ [s])))
              acc st
    = (Full.Ok (acc ++ v), st1) /\
    map fst v = links /\
    Full.calls st1 = Full.calls st ++ map get10 links.
Proof.
  revert acc st. induction links as [| l links IH]; intros acc st Hok.
  - exists [], st. cbn. rewrite !app_nil_r. repeat split.
  - rewrite full_check_links_cons.
    destruct (Hok (Full.calls st) l (or_introl eq_refl)) as [o ->].
    destruct (IH (acc ++ [(l, recorded o)])
                 (Full.mkState (Full.calls st ++ [get10 l])
                               (Full.clock st + snd (lib_get (Full.calls st) l 10%Z))
                               (Full.disk st))) as [v [st1 [Hrun [Hv Hc]]]].
    { intros h link Hin. apply Hok. now right. }
    exists ((l, recorded o) :: v), st1. rewrite Hrun, Hc. cbn [Full.calls map fst].
    rewrite Hv, <- !app_assoc. repeat split.
Qed.

(** The scan of a page one of whose links lets an exception through. *)
Lemma full_scan_page_link_escapes url (st : Full.State Disk) response hrefs good bad rest :
  fst (lib_get (Full.calls st) url 10%Z) = Full.Completes (Returns response) ->
  find_all_a_href (text response) = Some hrefs ->
  collect_links hrefs = good ++ bad :: rest ->
  (forall h link, In link good -> exists o, fst (lib_get h link 10%Z) = Full.Completes o) ->
  fst (lib_get (Full.calls st ++ get10 url :: map get10 good) bad 10%Z) = Full.Escapes ->
  fst (Full.scan_page lib_get find_all_a_href url st) = Full.Raised Full.LibraryError /\
  Full.calls (snd (Full.scan_page lib_get find_all_a_href url st))
  = Full.calls st ++ get10 url :: map get10 good ++ [get10 bad].
Proof.
  intros Hpage Hparse Hlinks Hgood Hbad.
  rewrite full_scan_page_run. cbv zeta. rewrite Hpage, Hparse, Hlinks, full_for_app.
  destruct (full_check_links_completes
              good []
              (Full.mkState (Full.calls st ++ [get10 url])
                            (Full.clock st + snd (lib_get (Full.calls st) url 10%Z))
                            (Full.disk st)) Hgood) as [v [st1 [Hrun [_ Hc]]]].
  rewrite Hrun, full_check_links_cons. cbn [Full.calls] in Hc.
  rewrite Hc, <- app_assoc. cbn [app]. rewrite Hbad. cbn [fst snd Full.calls].
  split; [reflexivity |]. now rewrite <- app_assoc.
Qed.

End Aborts.

(** X12 (extract_http_links, lines 37-62).  An exception that is no
    RequestException ends the run where it is raised: when the call for a
    seed lets one through, when the parser rejects the seed's page, or when
    the call for one of the page's links lets one through,
    [extract_http_links] raises it; no report is returned, and nothing is
    requested after the call that preceded it, neither the remaining links
    nor the remaining seeds. *)
Theorem uncaught_exception_ends_the_run
        (Disk : Type) lib_get find_all_a_href urls1 url urls2
        (st st1 : Full.State Disk) report1 :
  Full.extract_http_links lib_get find_all_a_href urls1 st = (Full.Ok report1, st1) ->
  (fst (lib_get (Full.calls st1) url 10%Z) = Full.Escapes ->
   fst (Full.extract_http_links lib_get find_all_a_href (urls1 ++ url :: urls2) st)
   = Full.Raised Full.LibraryError /\
   Full.calls (snd (Full.extract_http_links lib_get find_all_a_href
                                            (urls1 ++ url :: urls2) st))
   = Full.calls st1 ++ [mkRequest url 10]) /\
  (forall response,
      fst (lib_get (Full.calls st1) url 10%Z) = Full.Completes (Returns response) ->
      find_all_a_href (text response) = None ->
      fst (Full.extract_http_links lib_get find_all_a_href (urls1 ++ url :: urls2) st)
      = Full.Raised Full.MarkupError /\
      Full.calls (snd (Full.extract_http_links lib_get find_all_a_href
                                               (urls1 ++ url :: urls2) st))
      = Full.calls st1 ++ [mkRequest url 10]) /\
  (forall response hrefs good bad rest,
      fst (lib_get (Full.calls st1) url 10%Z) = Full.Completes (Returns response) ->
      find_all_a_href (text response) = Some hrefs ->
      collect_links hrefs = good ++ bad :: rest ->
      (forall h link,
          In link good -> exists o, fst (lib_get h link 10%Z) = Full.Completes o) ->
      fst (lib_get (Full.calls st1
                      ++ mkRequest url 10 :: map (fun link => mkRequest link 10) good)
                   bad 10%Z) = Full.Escapes ->
      fst (Full.extract_http_links lib_get find_all_a_href (urls1 ++ url :: urls2) st)
      = Full.Raised Full.LibraryError /\
      Full.calls (snd (Full.extract_http_links lib_get find_all_a_href
                                               (urls1 ++ url :: urls2) st))
      = Full.calls st1
        ++ mkRequest url 10
           :: map (fun link => mkRequest link 10) good ++ [mkRequest bad 10]).
Proof.
  intros Hrun1. unfold Full.extract_http_links in *.
  rewrite full_for_app, Hrun1, full_seeds_loop_cons.
  split; [| split].
  - intros Hesc. rewrite full_scan_page_run. cbv zeta. rewrite Hesc. split; reflexivity.
  - intros response Hpage Hnone. rewrite full_scan_page_run. cbv zeta.
    rewrite Hpage, Hnone. split; reflexivity.
  - intros response hrefs good bad rest Hpage Hparse Hlinks Hgood Hbad.
    destruct (full_scan_page_link_escapes lib_get find_all_a_href url st1 response
                                          hrefs good bad rest Hpage Hparse Hlinks Hgood Hbad)
      as [Hr Hc].
    destruct (Full.scan_page lib_get find_all_a_href url st1) as [r st2].
    cbn [fst snd] in Hr, Hc. subst r. split; [reflexivity | exact Hc].
Qed.

Lemma uncaught_exception_ends_the_run_witness :
  fst (Full.extract_http_links (lib_escaping link_bad server_r) (parser_of scan_anchors)
                               ([seed_b] ++ seed_a :: [seed_b]) start)
  = Full.Raised Full.LibraryError /\
  Full.calls (snd (Full.extract_http_links (lib_escaping link_bad server_r)
                                           (parser_of scan_anchors)
                                           ([seed_b] ++ seed_a :: [seed_b]) start))
  = [ mkRequest seed_b 10; mkRequest "http://x.example" 10; mkRequest "http://x.example" 10;
      mkRequest seed_a 10; mkRequest link_bad 10 ].
Proof.
  apply (proj2 (proj2 (uncaught_exception_ends_the_run
                         (PyDict.dict string)
                         (lib_escaping link_bad server_r) (parser_of scan_anchors)
                         [seed_b] seed_a [seed_b] start
                         (snd (Full.extract_http_links
                                 (lib_escaping link_bad server_r) (parser_of scan_anchors)
                                 [seed_b] start))
                         [(seed_b, [("http://x.example", 404%Z); ("http://x.example", 404%Z)])]
                         eq_refl))
               (mkResponse 200 body_bad) (scan_anchors body_bad) [] link_bad [link_x]).
  - reflexivity.
  - reflexivity.
  - reflexivity.
  - intros h link [].
  - reflexivity.
Defined.


